(** * news-please: the Common Crawl extractor and its example driver

    A shallow embedding of
      - [newsplease/crawler/commoncrawl_extractor.py] (class
        [CommonCrawlExtractor]) and
      - [newsplease/examples/commoncrawl.py] (the per-record worker and the
        callback that writes the article sink),
    followed by the properties of the fetch / materialise / extract pipeline.

    Python strings are [string]s holding the UTF-8 bytes of the text.  The
    file system, the console and every call of an external capability are
    threaded through an explicit [world]; exceptions and [sys.exit()] are
    outcomes of a small state-and-error monad.  Creating and writing a file
    always succeeds: permissions and full disks are outside the model. *)

From Stdlib Require Import String Ascii List NArith Lia.
From Stdlib Require Import Sorting.Permutation.
From stdpp Require Import gmap strings list pretty.

Import ListNotations.
Local Open Scope string_scope.

(** ** Python library functions used by the source *)

Module Py.

Definition in_range (lo hi c : ascii) : bool :=
  (N_of_ascii lo <=? N_of_ascii c)%N && (N_of_ascii c <=? N_of_ascii hi)%N.

Definition ascii_eqb (a b : ascii) : bool := Ascii.eqb a b.

(** [urllib.parse._ALWAYS_SAFE]: letters, digits and [_.-~]. *)
Definition always_safe (c : ascii) : bool :=
  (in_range "A" "Z" c || in_range "a" "z" c || in_range "0" "9" c
   || ascii_eqb c "_" || ascii_eqb c "." || ascii_eqb c "-" || ascii_eqb c "~")%char.

Definition hex_digit (n : N) : ascii :=
  match String.get (N.to_nat n) "0123456789ABCDEF" with
  | Some d => d
  | None => "F"%char
  end.

(** ['%{:02X}'.format(byte)] *)
Definition percent_encode (c : ascii) : string :=
  let n := N_of_ascii c in
  String "%" (String (hex_digit (n / 16)) (String (hex_digit (n mod 16)) EmptyString)).

(** [urllib.parse.quote_plus(s)] with the default [safe='']: safe bytes are
    kept, a space becomes [+], every other byte becomes [%XX]. *)
Fixpoint quote_plus (s : string) : string :=
  match s with
  | EmptyString => EmptyString
  | String c rest =>
      (if always_safe c then String c EmptyString
       else if ascii_eqb c " "%char then "+"
       else percent_encode c) ++ quote_plus rest
  end.

Definition startswith_sep (s : string) : bool :=
  match s with
  | String c _ => ascii_eqb c "/"%char
  | EmptyString => false
  end.

Fixpoint endswith_sep (s : string) : bool :=
  match s with
  | EmptyString => false
  | String c EmptyString => ascii_eqb c "/"%char
  | String _ rest => endswith_sep rest
  end.

(** [os.path.join(a, b)] of [posixpath], for two components. *)
Definition os_path_join (a b : string) : string :=
  if startswith_sep b then b
  else if (String.eqb a "" || endswith_sep a)%bool then a ++ b
  else a ++ "/" ++ b.

(** [data[:-1] if data[-1:] == '\n' else data], the last step of
    [subprocess.getstatusoutput]. *)
Fixpoint strip_trailing_newline (s : string) : string :=
  match s with
  | EmptyString => EmptyString
  | String c EmptyString => if ascii_eqb c "010"%char then EmptyString else s
  | String c rest => String c (strip_trailing_newline rest)
  end.

(** The line boundaries of [str.splitlines] that are single bytes in
    UTF-8: LF, VT, FF, FS, GS, RS (CR is handled apart, for CR LF). *)
Definition is_line_break (c : ascii) : bool :=
  let n := N_of_ascii c in
  ((n =? 10) || (n =? 11) || (n =? 12) || (n =? 28) || (n =? 29) || (n =? 30))%N.

(** [str.splitlines()] without [keepends].  [cur] is the current line in
    reverse; a final line without terminator is kept, an empty remainder is
    not.  NEL (C2 85) and LS / PS (E2 80 A8 / A9) are the multi-byte
    boundaries. *)
Fixpoint splitlines_go (s : string) (cur : list ascii) : list string :=
  let flush := string_of_list_ascii (rev cur) in
  match s with
  | EmptyString => match cur with [] => [] | _ => [flush] end
  | String c rest =>
      if ascii_eqb c "013"%char then
        match rest with
        | String d rest' =>
            if ascii_eqb d "010"%char then flush :: splitlines_go rest' []
            else flush :: splitlines_go rest []
        | EmptyString => [flush]
        end
      else if is_line_break c then flush :: splitlines_go rest []
      else
        match rest with
        | String d1 (String d2 rest2 as rest1) =>
            if ascii_eqb c "194"%char && ascii_eqb d1 "133"%char
            then flush :: splitlines_go rest1 []
            else if ascii_eqb c "226"%char && ascii_eqb d1 "128"%char
                    && (ascii_eqb d2 "168"%char || ascii_eqb d2 "169"%char)
            then flush :: splitlines_go rest2 []
            else splitlines_go rest (c :: cur)
        | String d1 rest1 =>
            if ascii_eqb c "194"%char && ascii_eqb d1 "133"%char
            then flush :: splitlines_go rest1 []
            else splitlines_go rest (c :: cur)
        | EmptyString => splitlines_go rest (c :: cur)
        end
  end.

Definition splitlines (s : string) : list string := splitlines_go s [].

End Py.

(** ** Python values, exceptions and WARC records *)

(** The exception classes the two files can meet.  Every value of
    [py_exception] is an instance of Python's [Exception]; [SystemExit], which
    is not, is a separate outcome below. *)
Inductive exc_class :=
| OSError | FileNotFoundError | URLError | TypeError | ParserError
| AttributeError | ArchiveLoadFailed | OtherException (name : string).

Record py_exception := PyExc { exc_cls : exc_class; exc_msg : string }.

(** [isinstance(e, OSError)]: [FileNotFoundError] and [urllib.error.URLError]
    derive from [OSError]. *)
Definition is_OSError (e : py_exception) : bool :=
  match exc_cls e with
  | OSError | FileNotFoundError | URLError => true
  | _ => false
  end.

Record datetime := { dt_year : nat; dt_month : nat; dt_day : nat }.

Inductive pyval :=
| VNone
| VStr (s : string)
| VDatetime (d : datetime).

(** Modelled from the spec: the article class ([NewsArticle]) is not among
    the sources.  An article is a bag of named fields (host, optional publish
    date, title, ...); it is kept as its attribute dictionary
    [article.__dict__] in insertion order, and ['k' in article] is the
    presence of the field [k]. *)
Definition article := list (string * pyval).

Fixpoint dict_get (k : string) (d : article) : option pyval :=
  match d with
  | [] => None
  | (k', v) :: rest => if String.eqb k k' then Some v else dict_get k rest
  end.

(** ['k' in article] *)
Definition dict_contains (k : string) (d : article) : bool :=
  match dict_get k d with Some _ => true | None => false end.

(** A record object of [warcio].  [raw_stream] is the handle of the payload
    stream ([None] once the attribute has been deleted); [read_stream] is the
    attribute that [read_record] adds. *)
Record warc_record := {
  rec_type : string;
  rec_headers : list (string * string);
  raw_stream : option nat;
  read_stream : option string
}.

(** One entry of a WARC container as the parser finds it, and the container
    as a whole: its entries in file order, ending well or in a parse error. *)
Record warc_entry := {
  entry_type : string;
  entry_headers : list (string * string);
  entry_payload : string
}.

Inductive archive :=
| ArcEnd
| ArcRecord (e : warc_entry) (rest : archive)
| ArcFail (msg : string).

(** ** The world: file system, open streams and the trace of effects *)

Inductive logging_level := DEBUG | INFO | WARNING | ERROR | CRITICAL.

Inductive event :=
| EvLog (level : logging_level) (msg : string)
| EvPrint (text : string)
| EvMakedirs (path : string)
| EvRemove (path : string)
| EvUrlRetrieve (url path : string)
| EvShell (cmd : string)
| EvAppendLine (path line : string)
| EvFromWarc (r : warc_record)
| EvSinkWrite (path line : string)
| EvMarker (path text : string).

Record world := {
  files : gmap string string;
  dirs : gset string;
  streams : gmap nat string;
  next_stream : nat;
  trace : list event
}.

Definition set_files (f : gmap string string → gmap string string) (w : world) : world :=
  {| files := f (files w); dirs := dirs w; streams := streams w;
     next_stream := next_stream w; trace := trace w |}.

Definition set_dirs (f : gset string → gset string) (w : world) : world :=
  {| files := files w; dirs := f (dirs w); streams := streams w;
     next_stream := next_stream w; trace := trace w |}.

Definition set_streams (f : gmap nat string → gmap nat string) (w : world) : world :=
  {| files := files w; dirs := dirs w; streams := f (streams w);
     next_stream := next_stream w; trace := trace w |}.

Definition bump_stream (w : world) : world :=
  {| files := files w; dirs := dirs w; streams := streams w;
     next_stream := S (next_stream w); trace := trace w |}.

Definition log_event (e : event) (w : world) : world :=
  {| files := files w; dirs := dirs w; streams := streams w;
     next_stream := next_stream w; trace := trace w ++ [e] |}.

(** ** Outcomes and the monad of effectful Python code *)

Inductive outcome (A : Type) :=
| Return (a : A)
| Raise (e : py_exception)
| SysExit.
Arguments Return {A} a.
Arguments Raise {A} e.
Arguments SysExit {A}.

Definition M (A : Type) : Type := world → outcome A * world.

Definition ret {A} (a : A) : M A := λ w, (Return a, w).

Definition bind {A B} (m : M A) (k : A → M B) : M B :=
  λ w, match m w with
       | (Return a, w') => k a w'
       | (Raise e, w') => (Raise e, w')
       | (SysExit, w') => (SysExit, w')
       end.

Definition raise {A} (c : exc_class) (msg : string) : M A :=
  λ w, (Raise (PyExc c msg), w).

Definition reraise {A} (e : py_exception) : M A := λ w, (Raise e, w).

(** [sys.exit()] *)
Definition sys_exit {A} : M A := λ w, (SysExit, w).

(** [try: m  except <class>: h e], where [catches] is the [isinstance] test of
    the [except] clause.  [SystemExit] is never caught by such a clause. *)
Definition try_except {A} (m : M A) (catches : py_exception → bool)
    (h : py_exception → M A) : M A :=
  λ w, match m w with
       | (Raise e, w') => if catches e then h e w' else (Raise e, w')
       | r => r
       end.

Definition emit (e : event) : M unit := λ w, (Return tt, log_event e w).
Definition get_world : M world := λ w, (Return w, w).
Definition modify (f : world → world) : M unit := λ w, (Return tt, f w).

Declare Scope py_scope.
Delimit Scope py_scope with py.
Notation "x <- m ;; k" := (bind m (λ x, k))
  (at level 100, m at next level, right associativity) : py_scope.
Notation "m ;;; k" := (bind m (λ _, k))
  (at level 100, right associativity) : py_scope.
Local Open Scope py_scope.

(** *** File-system and logging primitives *)

Definition os_path_isfile (p : string) : M bool :=
  w <- get_world ;; ret (bool_decide (is_Some (files w !! p))).

Definition os_path_exists (p : string) : M bool :=
  w <- get_world ;;
  ret (bool_decide (is_Some (files w !! p)) || bool_decide (p ∈ dirs w)).

Definition os_makedirs (p : string) : M unit :=
  modify (set_dirs (λ d, {[p]} ∪ d)) ;;; emit (EvMakedirs p).

(** [os.remove(p)]: deletes the file, or raises [FileNotFoundError]. *)
Definition os_remove (p : string) : M unit :=
  w <- get_world ;;
  match files w !! p with
  | Some _ => modify (set_files (delete p)) ;;; emit (EvRemove p)
  | None => raise FileNotFoundError p
  end.

Definition logger (level : logging_level) (msg : string) : M unit := emit (EvLog level msg).
Definition print (text : string) : M unit := emit (EvPrint text).

(** [open(p, 'a')] followed by one [write(line)]. *)
Definition append_line (p line : string) : M unit :=
  modify (set_files (λ fs, <[p := default "" (fs !! p) ++ line]> fs)) ;;;
  emit (EvAppendLine p line).

(** ** The shell commands of the index listing *)

(** The result of one command run by the shell. *)
Record proc_result := { p_stdout : string; p_stderr : string; p_ok : bool }.

Module Shell.

Fixpoint split_go (is_sep : ascii → bool) (s : string) (cur : list ascii) : list string :=
  match s with
  | EmptyString => [string_of_list_ascii (rev cur)]
  | String c rest =>
      if is_sep c then string_of_list_ascii (rev cur) :: split_go is_sep rest []
      else split_go is_sep rest (c :: cur)
  end.

Definition nonempty (s : string) : bool := negb (String.eqb s "").

Fixpoint drop_last_empty (l : list string) : list string :=
  match l with
  | [] => []
  | [x] => if nonempty x then [x] else []
  | x :: rest => x :: drop_last_empty rest
  end.

(** The input records of [awk]: the lines of the text; a newline at the
    end of the text does not start another record. *)
Definition awk_records (text : string) : list string :=
  drop_last_empty (split_go (Py.ascii_eqb "010"%char) text []).

(** The fields of a record under the default separator: runs of blanks. *)
Definition awk_fields (line : string) : list string :=
  List.filter nonempty
    (split_go (λ c, Py.ascii_eqb c " "%char || Py.ascii_eqb c "009"%char) line []).

(** [awk '{ print $4 }' file] *)
Definition awk_print4 (text : string) : string :=
  String.concat ""
    (List.map (λ l, nth 3 (awk_fields l) "" ++ String "010" "") (awk_records text)).

(** The two command lines that [__get_remote_index] runs. *)
Inductive command := RmListing | ListIndex.

Definition tmp_listing : string := "tmpaws.txt".

Definition command_text (c : command) : string :=
  match c with
  | RmListing => "rm tmpaws.txt"
  | ListIndex =>
      "aws s3 ls --recursive s3://commoncrawl/crawl-data/CC-NEWS/ --no-sign-request > tmpaws.txt && "
      ++ "awk '{ print $4 }' tmpaws.txt && "
      ++ "rm tmpaws.txt"
  end.

(** What [/bin/sh -c] does with each command line, given what the [aws]
    call does: the new files and everything written to stdout and stderr.
    The redirection creates the listing file before [aws] runs; [&&] runs
    the next command only after a zero exit status. *)
Definition sh (aws : proc_result) (c : command) (fs : gmap string string)
    : gmap string string * string :=
  match c with
  | RmListing =>
      match fs !! tmp_listing with
      | Some _ => (delete tmp_listing fs, "")
      | None =>
          (fs, "rm: cannot remove 'tmpaws.txt': No such file or directory"
               ++ String "010" "")
      end
  | ListIndex =>
      let fs1 := <[tmp_listing := p_stdout aws]> fs in
      if p_ok aws
      then (delete tmp_listing fs1, p_stderr aws ++ awk_print4 (p_stdout aws))
      else (fs1, p_stderr aws)
  end.

End Shell.

(** ** External capabilities

    What the two files call but do not define: the network, the WARC parser
    of [warcio], the date parser of [dateutil], the [aws] command line, the
    article extractor and serialiser, and the order in which the process pool
    hands results back. *)

(** A completion order of the worker pool: a rearrangement of the results. *)
Record schedule := {
  reorder : ∀ A : Type, list A → list A;
  reorder_perm : ∀ (A : Type) (l : list A), Permutation (reorder A l) l
}.

Record env := {
  (** [urllib.request.urlretrieve]: the bytes behind a URL, or the error
      raised together with what had been written to the file by then, if the
      file had been opened *)
  urlopen : string → py_exception * option string + string;
  (** [warcio.ArchiveIterator] on the bytes of a local file *)
  archive_iterator : string → archive;
  (** the grammar of [dateutil.parser.parse] on a string; [None] is its [ParserError] *)
  dateutil_lex : string → option datetime;
  (** what [aws s3 ls --recursive ...] does when the shell runs it *)
  aws_s3_ls : proc_result;
  (** [NewsPlease.from_warc]: an article, no article, or an exception *)
  from_warc : warc_record → py_exception + option article;
  (** [json.dumps(d, default=str, separators=(',', ':'))] *)
  json_dumps : article → py_exception + string;
  (** completion order of [Pool.imap_unordered] *)
  pool_order : schedule;
  (** the text of [round(end_time - start_time, 1)] *)
  elapsed : string;
  (** the text of [round(timer.avg, 1)] at the i-th completion *)
  throughput : nat → string
}.

(** ** commoncrawl_extractor.py *)

Module CommonCrawlExtractor.

(** The instance attributes set by [extract_from_commoncrawl]. *)
Record config := {
  warc_download_url : string;
  local_download_dir_warc : string;
  filter_valid_hosts : option (list string);
  filter_start_date : option datetime;
  filter_end_date : option datetime;
  filter_strict_date : bool;
  reuse_previously_downloaded_files : bool;
  continue_after_error : bool;
  callback_on_article_extracted : list warc_record → M unit;
  show_download_progress : bool;
  log_level : logging_level;
  delete_warc_after_extraction : bool;
  log_pathname_fully_extracted_warcs : option string
}.

(** The class attribute [__local_download_dir_warc]. *)
Definition default_download_dir : string := "./cc_download_warc/".

Definition cc_base_url : string := "https://commoncrawl.s3.amazonaws.com/".

Section WithEnv.
Context (E : env).

(** [__setup]: create the download directory when it is missing.  The
    logger configuration has no effect on the modelled world. *)
Definition setup (self : config) : M unit :=
  present <- os_path_exists (local_download_dir_warc self) ;;
  if present then ret tt else os_makedirs (local_download_dir_warc self).

(** [__register_fully_extracted_warc_file] *)
Definition register_fully_extracted_warc_file (self : config) (warc_url : string) : M unit :=
  match log_pathname_fully_extracted_warcs self with
  | Some p => append_line p (warc_url ++ String "010" "")
  | None => raise TypeError "expected str, bytes or os.PathLike object, not NoneType"
  end.

(** [dateutil.parser.parse]: only a string is parsed. *)
Definition parser_parse (v : pyval) : M datetime :=
  match v with
  | VStr s =>
      match dateutil_lex E s with
      | Some d => ret d
      | None => raise ParserError ("Unknown string format: " ++ s)
      end
  | _ => raise TypeError "Parser must be a string or character stream"
  end.

(** [article.publish_date] *)
Definition getattr (a : article) (name : string) : M pyval :=
  match dict_get name a with
  | Some v => ret v
  | None => raise AttributeError name
  end.

(** [__get_publishing_date] *)
Definition get_publishing_date (self : config) (warc_record : warc_record) (a : article)
    : M (option datetime) :=
  if dict_contains "publish_date" a then
    v <- getattr a "publish_date" ;;
    d <- parser_parse v ;;
    ret (Some d)
  else ret None.

(** [__get_download_url] *)
Definition get_download_url (self : config) (name : string) : string := cc_base_url ++ name.

(** [__download]: the local path of a URL. *)
Definition local_filepath (self : config) (url : string) : string :=
  Py.os_path_join (local_download_dir_warc self) (Py.quote_plus url).

(** [urllib.request.urlretrieve(url, path)]: one network request; the file
    is written when it succeeds, and may be left incomplete when the transfer
    breaks.  The progress hook only writes to the console and is left out of
    the trace. *)
Definition urlretrieve (url path : string) : M unit :=
  emit (EvUrlRetrieve url path) ;;;
  match urlopen E url with
  | inr content => modify (set_files (<[path := content]>))
  | inl (e, Some partial) => modify (set_files (<[path := partial]>)) ;;; reraise e
  | inl (e, None) => reraise e
  end.

(** [__download] *)
Definition download (self : config) (url : string) : M string :=
  let local_filepath := local_filepath self url in
  isfile <- os_path_isfile local_filepath ;;
  if isfile && reuse_previously_downloaded_files self then
    logger INFO ("found local file " ++ local_filepath
                 ++ ", not downloading again due to configuration") ;;;
    ret local_filepath
  else
    try_except (os_remove local_filepath) is_OSError (λ _, ret tt) ;;;
    logger INFO ("downloading " ++ url ++ " (local: " ++ local_filepath ++ ")") ;;;
    urlretrieve url local_filepath ;;;
    logger INFO ("download completed, local file: " ++ local_filepath) ;;;
    ret local_filepath.

(** [subprocess.getoutput(cmd)]: the shell's combined output without its
    final newline; the exit status is not looked at. *)
Definition subprocess_getoutput (c : Shell.command) : M string :=
  emit (EvShell (Shell.command_text c)) ;;;
  w <- get_world ;;
  let '(fs, out) := Shell.sh (aws_s3_ls E) c (files w) in
  modify (set_files (λ _, fs)) ;;;
  ret (Py.strip_trailing_newline out).

(** [__get_remote_index] *)
Definition get_remote_index (self : config) : M (list string) :=
  subprocess_getoutput Shell.RmListing ;;;
  let cmd := Shell.ListIndex in
  logger INFO ("executing: " ++ Shell.command_text cmd) ;;;
  stdout_data <- subprocess_getoutput cmd ;;
  print stdout_data ;;;
  let lines := Py.splitlines stdout_data in
  ret lines.

(** The local function [read_record]: [record.raw_stream.read()] takes
    whatever is still unread on the record's stream. *)
Definition read_record (record : warc_record) : M warc_record :=
  match raw_stream record with
  | None => raise AttributeError "raw_stream"
  | Some h =>
      w <- get_world ;;
      let data := default "" (streams w !! h) in
      modify (set_streams (<[h := ""]>)) ;;;
      ret {| rec_type := rec_type record; rec_headers := rec_headers record;
             raw_stream := raw_stream record; read_stream := Some data |}
  end.

(** The local function [delete_raw_stream]: [del record.raw_stream]. *)
Definition delete_raw_stream (record : warc_record) : M warc_record :=
  match raw_stream record with
  | None => raise AttributeError "raw_stream"
  | Some _ =>
      ret {| rec_type := rec_type record; rec_headers := rec_headers record;
             raw_stream := None; read_stream := read_stream record |}
  end.

(** What is left on the stream of the record before is consumed when the
    iterator moves on. *)
Definition read_to_end (prev : option nat) : M unit :=
  match prev with
  | Some h => modify (set_streams (<[h := ""]>))
  | None => ret tt
  end.

(** One step of [ArchiveIterator]: the next record, its payload on a
    fresh stream. *)
Definition iterator_next (prev : option nat) (e : warc_entry) : M warc_record :=
  read_to_end prev ;;;
  w <- get_world ;;
  let h := next_stream w in
  modify (λ w, bump_stream (set_streams (<[h := entry_payload e]>) w)) ;;;
  ret {| rec_type := entry_type e; rec_headers := entry_headers e;
         raw_stream := Some h; read_stream := None |}.

(** [list(map(f, ArchiveIterator(stream)))]: [map] is lazy, so [f] runs on
    each record before the iterator is asked for the next one. *)
Fixpoint list_map_iterator (f : warc_record → M warc_record) (a : archive)
    (prev : option nat) : M (list warc_record) :=
  match a with
  | ArcEnd => read_to_end prev ;;; ret []
  | ArcFail msg => read_to_end prev ;;; raise ArchiveLoadFailed msg
  | ArcRecord e rest =>
      record <- iterator_next prev e ;;
      record' <- f record ;;
      records <- list_map_iterator f rest (raw_stream record) ;;
      ret (record' :: records)
  end.

(** [list(map(f, l))] on a list. *)
Fixpoint list_map (f : warc_record → M warc_record) (l : list warc_record)
    : M (list warc_record) :=
  match l with
  | [] => ret []
  | x :: rest => y <- f x ;; ys <- list_map f rest ;; ret (y :: ys)
  end.

(** [__process_warc_gz_file] *)
Definition process_warc_gz_file (self : config) (path_name : string) : M unit :=
  w <- get_world ;;
  match files w !! path_name with
  | None => raise FileNotFoundError path_name
  | Some stream =>
      warc_records <- list_map_iterator read_record (archive_iterator E stream) None ;;
      logger INFO ("Extracting " ++ pretty (length warc_records) ++ " records") ;;;
      warc_records <- list_map delete_raw_stream warc_records ;;
      callback_on_article_extracted self warc_records
  end.

(** [__run] *)
Definition run (self : config) : M unit :=
  setup self ;;;
  local_path_name <- download self (warc_download_url self) ;;
  process_warc_gz_file self local_path_name ;;;
  sys_exit.

(** The attribute assignments at the head of [extract_from_commoncrawl].
    [if local_download_dir_warc:] keeps the old directory for [None] and
    for the empty string. *)
Definition assign (self : config) (warc_download_url : string)
    (callback_on_article_extracted : list warc_record → M unit)
    (valid_hosts : option (list string)) (start_date end_date : option datetime)
    (strict_date reuse_previously_downloaded_files : bool)
    (local_download_dir_warc : option string)
    (continue_after_error show_download_progress : bool) (log_level : logging_level)
    (delete_warc_after_extraction : bool)
    (log_pathname_fully_extracted_warcs : option string) : config :=
  {| CommonCrawlExtractor.warc_download_url := warc_download_url;
     CommonCrawlExtractor.local_download_dir_warc :=
       match local_download_dir_warc with
       | Some d => if String.eqb d "" then CommonCrawlExtractor.local_download_dir_warc self else d
       | None => CommonCrawlExtractor.local_download_dir_warc self
       end;
     filter_valid_hosts := valid_hosts;
     filter_start_date := start_date;
     filter_end_date := end_date;
     filter_strict_date := strict_date;
     CommonCrawlExtractor.reuse_previously_downloaded_files := reuse_previously_downloaded_files;
     CommonCrawlExtractor.continue_after_error := continue_after_error;
     CommonCrawlExtractor.callback_on_article_extracted := callback_on_article_extracted;
     CommonCrawlExtractor.show_download_progress := show_download_progress;
     CommonCrawlExtractor.log_level := log_level;
     CommonCrawlExtractor.delete_warc_after_extraction := delete_warc_after_extraction;
     CommonCrawlExtractor.log_pathname_fully_extracted_warcs :=
       log_pathname_fully_extracted_warcs |}.

(** [extract_from_commoncrawl] *)
Definition extract_from_commoncrawl (self : config) (warc_download_url : string)
    (callback_on_article_extracted : list warc_record → M unit)
    (valid_hosts : option (list string)) (start_date end_date : option datetime)
    (strict_date reuse_previously_downloaded_files : bool)
    (local_download_dir_warc : option string)
    (continue_after_error show_download_progress : bool) (log_level : logging_level)
    (delete_warc_after_extraction : bool)
    (log_pathname_fully_extracted_warcs : option string) : M unit :=
  run (assign self warc_download_url callback_on_article_extracted valid_hosts
         start_date end_date strict_date reuse_previously_downloaded_files
         local_download_dir_warc continue_after_error show_download_progress
         log_level delete_warc_after_extraction log_pathname_fully_extracted_warcs).

End WithEnv.

(** A new [CommonCrawlExtractor()]: the class attributes. *)
Definition fresh_instance : config :=
  {| warc_download_url := "";
     local_download_dir_warc := default_download_dir;
     filter_valid_hosts := Some [];
     filter_start_date := None;
     filter_end_date := None;
     filter_strict_date := true;
     reuse_previously_downloaded_files := true;
     continue_after_error := false;
     callback_on_article_extracted :=
       λ _, raise TypeError "'NoneType' object is not callable";
     show_download_progress := false;
     log_level := INFO;
     delete_warc_after_extraction := true;
     log_pathname_fully_extracted_warcs := None |}.

End CommonCrawlExtractor.

(** ** examples/commoncrawl.py *)

Module Example.

Section WithEnv.
Context (E : env).
(** [my_local_download_dir_article], the [--outfile] argument. *)
Context (my_local_download_dir_article : string).

(** The result of an external call: returned, or raised. *)
Definition call {A} (r : py_exception + A) : M A :=
  match r with
  | inr a => ret a
  | inl e => reraise e
  end.

(** [except Exception]: every [py_exception] is an instance. *)
Definition is_Exception (e : py_exception) : bool := true.

(** [process_warc_record] *)
Definition process_warc_record (record : warc_record) : M (option string) :=
  try_except
    (if String.eqb (rec_type record) "response" then
       emit (EvFromWarc record) ;;;
       article <- call (from_warc E record) ;;
       match article with
       | Some a => s <- call (json_dumps E a) ;; ret (Some s)
       | None => ret None
       end
     else ret None)
    is_Exception
    (λ e, logger WARNING ("skipping record due to Exception: " ++ exc_msg e) ;;;
          ret None).

(** The workers of the pool: [process_warc_record] on every record.  The
    effects of the workers are recorded in input order; the results are
    handed back in the completion order of the pool. *)
Fixpoint pool_map (l : list warc_record) : M (list (option string)) :=
  match l with
  | [] => ret []
  | r :: rest =>
      x <- process_warc_record r ;;
      xs <- pool_map rest ;;
      ret (x :: xs)
  end.

Definition imap_unordered (l : list warc_record) : M (list (option string)) :=
  results <- pool_map l ;;
  ret (reorder (pool_order E) _ results).

(** [gzip.open(path, 'wt')]: the file is created or truncated.  The file
    holds the text that was written, before compression. *)
Definition gzip_open_wt (path : string) : M unit :=
  modify (set_files (<[path := ""]>)).

(** [print(article, file=outfile)] *)
Definition print_to (path text : string) : M unit :=
  let line := text ++ String "010" "" in
  modify (set_files (λ fs, <[path := default "" (fs !! path) ++ line]> fs)) ;;;
  emit (EvSinkWrite path line).

(** The loop [for i, article in enumerate(json_articles)]. *)
Fixpoint write_articles (i num_records : nat) (json_articles : list (option string))
    : M unit :=
  match json_articles with
  | [] => ret tt
  | article :: rest =>
      match article with
      | Some a => print_to my_local_download_dir_article a
      | None => ret tt
      end ;;;
      (if (i mod 100 =? 0)%nat then
         logger INFO ("extraction timer: " ++ pretty (i + 1)%nat ++ "/"
                      ++ pretty num_records ++ " at " ++ throughput E i
                      ++ " articles per second")
       else ret tt) ;;;
      write_articles (S i) num_records rest
  end.

(** [on_valid_article_extracted] *)
Definition on_valid_article_extracted (warc_records : list warc_record) : M unit :=
  let num_records := length warc_records in
  json_articles <- imap_unordered warc_records ;;
  gzip_open_wt my_local_download_dir_article ;;;
  write_articles 0 num_records json_articles ;;;
  let done := "done in " ++ elapsed E ++ " seconds" in
  modify (set_files (<[my_local_download_dir_article ++ ".done" := done ++ String "010" ""]>)) ;;;
  emit (EvMarker (my_local_download_dir_article ++ ".done") done) ;;;
  print done.

End WithEnv.
Section PrettyPath.
(** [hashlib.sha256(b).hexdigest()] *)
Context (sha256_hexdigest : string → string).

(** [v.encode()]: only a string has the method. *)
Definition encode (v : pyval) : M string :=
  match v with
  | VStr s => ret s
  | VNone => raise AttributeError "'NoneType' object has no attribute 'encode'"
  | VDatetime _ => raise AttributeError "'datetime.datetime' object has no attribute 'encode'"
  end.

(** [path + v]: only a string can be added to a string. *)
Definition str_add (path : string) (v : pyval) : M string :=
  match v with
  | VStr s => ret (path ++ s)
  | _ => raise TypeError "can only concatenate str to str"
  end.

(** [__get_pretty_filepath] *)
Definition get_pretty_filepath (path : string) (article : article) : M string :=
  filename <- CommonCrawlExtractor.getattr article "filename" ;;
  encoded <- encode filename ;;
  let short_filename := sha256_hexdigest encoded in
  sub_dir <- CommonCrawlExtractor.getattr article "source_domain" ;;
  prefix <- str_add path sub_dir ;;
  let final_path := prefix ++ "/" in
  present <- os_path_exists final_path ;;
  (if present then ret tt else os_makedirs final_path) ;;;
  ret (final_path ++ short_filename ++ ".json").

End PrettyPath.
End Example.

(** ** Concrete environments and inputs

    Small stand-ins for the external capabilities, on which the functions
    above can be run. *)

Module Scenario.

Definition in_order : schedule :=
  {| reorder := λ A l, l; reorder_perm := λ A l, Permutation_refl l |}.

Definition last_first : schedule :=
  {| reorder := @rev;
     reorder_perm := λ A l, Permutation_sym (Permutation_rev l) |}.

Definition digit (c : ascii) : option nat :=
  let n := nat_of_ascii c in
  if ((48 <=? n) && (n <=? 57))%nat then Some (n - 48)%nat else None.

Definition number (cs : list ascii) : option nat :=
  foldl (λ acc c, match acc, digit c with
                  | Some a, Some d => Some (10 * a + d)%nat
                  | _, _ => None
                  end) (Some 0%nat) cs.

(** Dates written [YYYY-MM-DD]; every other string is refused. *)
Definition iso_date (s : string) : option datetime :=
  match list_ascii_of_string s with
  | [y1; y2; y3; y4; s1; m1; m2; s2; d1; d2] =>
      if Py.ascii_eqb s1 "-"%char && Py.ascii_eqb s2 "-"%char then
        match number [y1; y2; y3; y4], number [m1; m2], number [d1; d2] with
        | Some y, Some m, Some d =>
            if ((1 <=? m) && (m <=? 12) && (1 <=? d) && (d <=? 31))%nat
            then Some {| dt_year := y; dt_month := m; dt_day := d |}
            else None
        | _, _, _ => None
        end
      else None
  | _ => None
  end.

Fixpoint header (k : string) (h : list (string * string)) : option string :=
  match h with
  | [] => None
  | (k', v) :: rest => if String.eqb k k' then Some v else header k rest
  end.

(** An extractor: the payload [bad] makes it raise, an empty payload gives
    no article; the host and the date are taken from the headers. *)
Definition extractor (r : warc_record) : py_exception + option article :=
  match read_stream r with
  | None => inl (PyExc AttributeError "read_stream")
  | Some body =>
      if String.eqb body "bad" then inl (PyExc (OtherException "ValueError") "bad document")
      else if String.eqb body "" then inr None
      else inr (Some ([("source_domain", VStr (default "" (header "host" (rec_headers r))));
                       ("title", VStr body)]
                      ++ match header "date" (rec_headers r) with
                         | Some d => [("publish_date", VStr d)]
                         | None => []
                         end)%list)
  end.

Definition show (v : pyval) : string :=
  match v with
  | VNone => "null"
  | VStr s => s
  | VDatetime d => pretty (dt_year d)
  end.

Definition serializer (a : article) : py_exception + string :=
  inr (String.concat "," (List.map (λ kv, fst kv ++ ":" ++ show (snd kv)) a)).

Definition entry (host body : string) : warc_entry :=
  {| entry_type := "response"; entry_headers := [("host", host)]; entry_payload := body |}.

Fixpoint archive_of (l : list warc_entry) : archive :=
  match l with
  | [] => ArcEnd
  | e :: rest => ArcRecord e (archive_of rest)
  end.

(** Three local files are known to the parser: one record of a host that
    is not listed, one dated record set, and ten records of which the
    fourth cannot be extracted. *)
Definition parser (bytes : string) : archive :=
  if String.eqb bytes "one" then archive_of [entry "other.org" "Some text"]
  else if String.eqb bytes "ten" then
    archive_of [entry "a.org" "t0"; entry "a.org" "t1"; entry "a.org" "t2";
                entry "a.org" "bad"; entry "a.org" "t4"; entry "a.org" "t5";
                entry "a.org" "t6"; entry "a.org" "t7"; entry "a.org" "t8";
                entry "a.org" "t9"]
  else if String.eqb bytes "broken" then ArcRecord (entry "a.org" "t0") (ArcFail "bad gzip")
  else ArcEnd.

Definition remote (url : string) : py_exception * option string + string :=
  if String.eqb url "https://host/one.warc.gz" then inr "one"
  else if String.eqb url "https://host/ten.warc.gz" then inr "ten"
  else if String.eqb url "https://host/cut.warc.gz"
       then inl (PyExc (OtherException "ContentTooShortError") "retrieval incomplete", Some "t")
  else inl (PyExc URLError "not found", None).

(** [aws] is installed and lists two objects. *)
Definition aws_lists : proc_result :=
  {| p_stdout := "2017-01-01 10:00:00 100 crawl-data/CC-NEWS/2016/a.warc.gz" ++ String "010" ""
                 ++ "2017-01-02 10:00:00 200 crawl-data/CC-NEWS/2016/b.warc.gz" ++ String "010" "";
     p_stderr := ""; p_ok := true |}.

(** [aws] is not installed: the shell reports it and exits with 127. *)
Definition aws_missing : proc_result :=
  {| p_stdout := ""; p_stderr := "/bin/sh: 1: aws: not found" ++ String "010" "";
     p_ok := false |}.

Definition env_with (aws : proc_result) (order : schedule) : env :=
  {| urlopen := remote; archive_iterator := parser; dateutil_lex := iso_date;
     aws_s3_ls := aws; from_warc := extractor; json_dumps := serializer;
     pool_order := order; elapsed := "0.1"; throughput := λ _, "10.0" |}.

Definition demo : env := env_with aws_lists in_order.

Definition empty_world : world :=
  {| files := ∅; dirs := ∅; streams := ∅; next_stream := 0; trace := [] |}.

Definition world_with (path bytes : string) : world :=
  {| files := {[ path := bytes ]}; dirs := {[ "./cc_download_warc/" ]};
     streams := ∅; next_stream := 0; trace := [] |}.

End Scenario.

(** ** Observations on traces and records *)

(** The network requests of a trace. *)
Definition network_requests (t : list event) : list string :=
  omap (λ e, match e with EvUrlRetrieve url _ => Some url | _ => None end) t.

(** The lines written to the sink. *)
Definition sink_lines (t : list event) : list string :=
  omap (λ e, match e with EvSinkWrite _ line => Some line | _ => None end) t.

(** The file deletions of a trace. *)
Definition removals (t : list event) : list string :=
  omap (λ e, match e with EvRemove p => Some p | _ => None end) t.

(** The checkpoint lines appended in a trace. *)
Definition checkpoint_appends (t : list event) : list (string * string) :=
  omap (λ e, match e with EvAppendLine p l => Some (p, l) | _ => None end) t.

(** The records that were handed to the article extractor. *)
Definition extraction_calls (t : list event) : list warc_record :=
  omap (λ e, match e with EvFromWarc r => Some r | _ => None end) t.

Definition log_events (es : list event) (w : world) : world :=
  {| files := files w; dirs := dirs w; streams := streams w;
     next_stream := next_stream w; trace := trace w ++ es |}.

Definition is_response (r : warc_record) : bool := String.eqb (rec_type r) "response".

(** The record is a response and the extractor raises on it. *)
Definition extraction_raises (E : env) (r : warc_record) : bool :=
  is_response r && match from_warc E r with inl _ => true | inr _ => false end.

(** The record is a response, the extractor returns an article for it and
    the article is serialised. *)
Definition yields_article (E : env) (r : warc_record) : bool :=
  is_response r &&
  match from_warc E r with
  | inr (Some a) => match json_dumps E a with inr _ => true | inl _ => false end
  | _ => false
  end.

(** The serialised article of a record, when it yields one. *)
Definition article_of (E : env) (r : warc_record) : option string :=
  if is_response r then
    match from_warc E r with
    | inr (Some a) => match json_dumps E a with inr s => Some s | inl _ => None end
    | _ => None
    end
  else None.

Definition skip_warning (e : py_exception) : event :=
  EvLog WARNING ("skipping record due to Exception: " ++ exc_msg e).

(** What one worker does to the trace for a record. *)
Definition worker_events (E : env) (r : warc_record) : list event :=
  if is_response r then
    EvFromWarc r ::
    match from_warc E r with
    | inl e => [skip_warning e]
    | inr None => []
    | inr (Some a) => match json_dumps E a with inl e => [skip_warning e] | inr _ => [] end
    end
  else [].

(** The line that [print(article, file=outfile)] writes. *)
Definition sink_line (a : string) : string := a ++ String "010" "".

(** The entries of a container up to its end or to the parse error. *)
Fixpoint entries_of (a : archive) : list warc_entry :=
  match a with
  | ArcRecord e rest => e :: entries_of rest
  | _ => []
  end.

(** The parse error that ends the container, if any. *)
Fixpoint parse_error (a : archive) : option string :=
  match a with
  | ArcEnd => None
  | ArcRecord _ rest => parse_error rest
  | ArcFail msg => Some msg
  end.

(** A record with its payload in memory and without its stream. *)
Definition materialized (e : warc_entry) : warc_record :=
  {| rec_type := entry_type e; rec_headers := entry_headers e;
     raw_stream := None; read_stream := Some (entry_payload e) |}.

(** Events that delete no file, append no checkpoint line and make no
    network request. *)
Definition quiet_event (e : event) : bool :=
  match e with
  | EvRemove _ | EvAppendLine _ _ | EvUrlRetrieve _ _ => false
  | _ => true
  end.

(** A record after [read_record]: the payload of its entry is in
    [read_stream], the stream attribute is still there. *)
Definition loaded_from (r : warc_record) (e : warc_entry) : Prop :=
  rec_type r = entry_type e ∧ rec_headers r = entry_headers e
  ∧ is_Some (raw_stream r) ∧ read_stream r = Some (entry_payload e).

(** ** Auxiliary notions for the properties of the remaining code *)

(** The character [c] occurs in [s]. *)
Fixpoint contains_char (c : ascii) (s : string) : bool :=
  match s with
  | EmptyString => false
  | String d rest => Py.ascii_eqb d c || contains_char c rest
  end.

Definition hex_value (c : ascii) : option N :=
  let n := N_of_ascii c in
  if Py.in_range "0" "9" c then Some (n - 48)%N
  else if Py.in_range "A" "F" c then Some (n - 55)%N
  else None.

(** The decoding that undoes [quote_plus]: [%XX] is a byte, [+] a space.
    It is used to show that file names determine their URL. *)
Fixpoint unquote_plus (s : string) : string :=
  match s with
  | EmptyString => EmptyString
  | String c rest =>
      if Py.ascii_eqb c "%"%char then
        match rest with
        | String h1 (String h2 rest') =>
            match hex_value h1, hex_value h2 with
            | Some a, Some b => String (ascii_of_N (16 * a + b)) (unquote_plus rest')
            | _, _ => String c (unquote_plus rest)
            end
        | _ => String c (unquote_plus rest)
        end
      else if Py.ascii_eqb c "+"%char then String " "%char (unquote_plus rest)
      else String c (unquote_plus rest)
  end.

(** The download directory as a prefix of the paths below it. *)
Definition dir_prefix (d : string) : string :=
  if (String.eqb d "" || Py.endswith_sep d)%bool then d else d ++ "/".

(** The number of [INFO] lines logged in a trace. *)
Definition info_logs (t : list event) : nat :=
  length (List.filter (λ e, match e with EvLog INFO _ => true | _ => false end) t).

(** Printable characters other than blanks. *)
Definition plain_char (c : ascii) : bool :=
  ((33 <=? N_of_ascii c) && (N_of_ascii c <=? 126))%N.

Fixpoint plain (s : string) : bool :=
  match s with
  | EmptyString => true
  | String c rest => plain_char c && plain rest
  end.

(** A word: a non-empty string of printable characters without blanks, as
    archive names and URLs are. *)
Definition word (s : string) : bool := Shell.nonempty s && plain s.

(** The text that holds the given lines, each ended by a newline. *)
Fixpoint lines_text (l : list string) : string :=
  match l with
  | [] => ""
  | x :: rest => x ++ String "010" "" ++ lines_text rest
  end.

(** [for x in l: f(x)] *)
Fixpoint for_each {A} (f : A → M unit) (l : list A) : M unit :=
  match l with
  | [] => ret tt
  | x :: rest => f x ;;; for_each f rest
  end.

Fixpoint spaces (n : nat) : string :=
  match n with
  | O => ""
  | S n' => String " " (spaces n')
  end.

(** A row of the listing of [aws s3 ls]: date, time, size (padded on the
    left) and key. *)
Record listing_row := {
  row_date : string; row_time : string; row_pad : nat;
  row_size : string; row_key : string
}.

Definition row_text (r : listing_row) : string :=
  row_date r ++ " " ++ row_time r ++ spaces (S (row_pad r)) ++ row_size r
  ++ " " ++ row_key r.

Definition row_ok (r : listing_row) : bool :=
  word (row_date r) && word (row_time r) && word (row_size r) && word (row_key r).

(** No character of [s] is a separator. *)
Fixpoint free_of (is_sep : ascii → bool) (s : string) : bool :=
  match s with
  | EmptyString => true
  | String c rest => negb (is_sep c) && free_of is_sep rest
  end.

(** * Properties *)

Import CommonCrawlExtractor.

(** Unfolding of the monad's combinators and of the primitives. *)
Ltac unfold_py :=
  cbv beta iota zeta delta
    [bind ret raise reraise sys_exit try_except emit get_world modify
     logger print os_path_isfile os_path_exists os_makedirs os_remove
     append_line] in *.

(** Evaluate the left-hand side of an equation, then compare. *)
Ltac eval_lhs :=
  match goal with
  | |- ?l = _ =>
      let v := eval vm_compute in l in
      transitivity v; [vm_compute; reflexivity | reflexivity]
  end.

Lemma network_requests_app t1 t2 :
  network_requests (t1 ++ t2) = (network_requests t1 ++ network_requests t2)%list.
Proof. apply omap_app. Qed.

Lemma removals_app t1 t2 : removals (t1 ++ t2) = (removals t1 ++ removals t2)%list.
Proof. apply omap_app. Qed.

Lemma sink_lines_app t1 t2 : sink_lines (t1 ++ t2) = (sink_lines t1 ++ sink_lines t2)%list.
Proof. apply omap_app. Qed.

Lemma checkpoint_appends_app t1 t2 :
  checkpoint_appends (t1 ++ t2) = (checkpoint_appends t1 ++ checkpoint_appends t2)%list.
Proof. apply omap_app. Qed.

Lemma extraction_calls_app t1 t2 :
  extraction_calls (t1 ++ t2) = (extraction_calls t1 ++ extraction_calls t2)%list.
Proof. apply omap_app. Qed.

(** *** The download step *)

(** With reuse enabled and the file present, [download] is one [isfile] test
    and one log line. *)
Lemma download_cached E self url w :
  reuse_previously_downloaded_files self = true →
  is_Some (files w !! local_filepath self url) →
  download E self url w =
    (Return (local_filepath self url),
     log_event (EvLog INFO ("found local file " ++ local_filepath self url
                            ++ ", not downloading again due to configuration")) w).
Proof.
  intros Hreuse Hfile. unfold download. unfold_py.
  rewrite Hreuse, bool_decide_true by done. reflexivity.
Qed.

(** A download that does not reuse a file: the stale file is deleted if
    there is one, then the URL is requested. *)
Lemma download_not_cached E self url w :
  bool_decide (is_Some (files w !! local_filepath self url))
  && reuse_previously_downloaded_files self = false →
  let p := local_filepath self url in
  let w1 := match files w !! p with
            | Some _ => log_event (EvRemove p) (set_files (delete p) w)
            | None => w
            end in
  let w2 := log_event (EvUrlRetrieve url p)
              (log_event (EvLog INFO ("downloading " ++ url ++ " (local: " ++ p ++ ")")) w1) in
  download E self url w =
  match urlopen E url with
  | inr content =>
      (Return p, log_event (EvLog INFO ("download completed, local file: " ++ p))
                   (set_files (<[p := content]>) w2))
  | inl (e, Some partial) => (Raise e, set_files (<[p := partial]>) w2)
  | inl (e, None) => (Raise e, w2)
  end.
Proof.
  intros Hnc p w1 w2. subst w2 w1 p. unfold download, urlretrieve. unfold_py.
  rewrite Hnc.
  destruct (files w !! local_filepath self url);
    destruct (urlopen E url) as [[e [c|]]|c]; reflexivity.
Qed.

(** A download that returns leaves a file at the local path. *)
Lemma download_returns_file E self url w p w' :
  download E self url w = (Return p, w') →
  p = local_filepath self url ∧ is_Some (files w' !! local_filepath self url).
Proof.
  destruct (bool_decide (is_Some (files w !! local_filepath self url))
            && reuse_previously_downloaded_files self) eqn:Hc.
  - apply andb_prop in Hc as [Hfile%bool_decide_eq_true Hreuse].
    rewrite (download_cached E self url w Hreuse Hfile).
    intros [= <- <-]. done.
  - rewrite (download_not_cached E self url w Hc).
    destruct (urlopen E url) as [[e [c|]]|c]; intros [= <- <-].
    split; [done|]. cbn [files log_event set_files]. rewrite lookup_insert_eq. eauto.
Qed.

(** The trace of a download: at most one deletion, that of a file which is
    at the local path and is not reused, ahead of everything else. *)
Lemma download_trace E self url w :
  let p := local_filepath self url in
  let stale := bool_decide (is_Some (files w !! p))
               && negb (reuse_previously_downloaded_files self) in
  ∃ o w1 es,
    download E self url w = (o, w1)
    ∧ trace w1 = (trace w ++ (if stale then [EvRemove p] else []) ++ es)%list
    ∧ removals es = [] ∧ checkpoint_appends es = []
    ∧ sink_lines es = [] ∧ extraction_calls es = [].
Proof.
  intros p stale. subst stale p.
  destruct (bool_decide (is_Some (files w !! local_filepath self url))
            && reuse_previously_downloaded_files self) eqn:Hc.
  - apply andb_prop in Hc as [Hfile%bool_decide_eq_true Hreuse].
    rewrite (download_cached E self url w Hreuse Hfile).
    rewrite Hreuse, andb_false_r.
    eexists _, _, [_]. split; [reflexivity|]. split; [reflexivity|]. done.
  - rewrite (download_not_cached E self url w Hc).
    destruct (files w !! local_filepath self url) as [c|] eqn:Hfile.
    + rewrite bool_decide_true in Hc |- * by eauto.
      rewrite andb_true_l in Hc. rewrite Hc. cbn [negb andb].
      destruct (urlopen E url) as [[e [c'|]]|content].
      * eexists _, _, [_; _]. split; [reflexivity|].
        cbn [trace log_event set_files]. rewrite <- !app_assoc.
        split; [reflexivity|]. done.
      * eexists _, _, [_; _]. split; [reflexivity|].
        cbn [trace log_event set_files]. rewrite <- !app_assoc.
        split; [reflexivity|]. done.
      * eexists _, _, [_; _; _]. split; [reflexivity|].
        cbn [trace log_event set_files]. rewrite <- !app_assoc.
        split; [reflexivity|]. done.
    + rewrite bool_decide_false by (by intros [? ?]). cbn [andb].
      destruct (urlopen E url) as [[e [c'|]]|content].
      * eexists _, _, [_; _]. split; [reflexivity|].
        cbn [trace log_event set_files]. rewrite <- !app_assoc.
        split; [reflexivity|]. done.
      * eexists _, _, [_; _]. split; [reflexivity|].
        cbn [trace log_event set_files]. rewrite <- !app_assoc.
        split; [reflexivity|]. done.
      * eexists _, _, [_; _; _]. split; [reflexivity|].
        cbn [trace log_event set_files]. rewrite <- !app_assoc.
        split; [reflexivity|]. done.
Qed.

(** Whatever the first call did, once it has returned a second call with
    reuse enabled finds the file and makes no request. *)
Lemma download_twice E self url w p w1 :
  reuse_previously_downloaded_files self = true →
  download E self url w = (Return p, w1) →
  ∃ w2, download E self url w1 = (Return p, w2)
        ∧ network_requests (trace w2) = network_requests (trace w1).
Proof.
  intros Hreuse Hfirst.
  destruct (download_returns_file _ _ _ _ _ _ Hfirst) as [-> Hfile].
  eexists. split; [by apply download_cached|].
  simpl. by rewrite network_requests_app, app_nil_r.
Qed.

(** C1.  For every URL: when reuse of downloaded files is enabled and a file
    exists at the local path (the download directory joined with the
    URL-escaped URL), [download] returns that path at once.  It adds one log
    line to the trace and nothing else: no network request, no change to the
    files, and the same result whatever the file holds.  A second call on the
    resulting world again returns the path without a network request. *)
Theorem download_reuses_cached_file (E : env) (self : config) (url : string) (w : world) :
  let p := Py.os_path_join (local_download_dir_warc self) (Py.quote_plus url) in
  reuse_previously_downloaded_files self = true →
  is_Some (files w !! p) →
  ∃ w1 w2 msg,
    download E self url w = (Return p, w1)
    ∧ trace w1 = (trace w ++ [EvLog INFO msg])%list
    ∧ files w1 = files w
    ∧ network_requests (trace w1) = network_requests (trace w)
    ∧ (∀ content,
         download E self url (set_files (<[p := content]>) w)
         = (Return p, log_event (EvLog INFO msg) (set_files (<[p := content]>) w)))
    ∧ download E self url w1 = (Return p, w2)
    ∧ network_requests (trace w2) = network_requests (trace w).
Proof.
  intros p Hreuse Hfile. fold (local_filepath self url) in p.
  eexists _, _, _. split; [by apply download_cached|].
  split; [reflexivity|]. split; [reflexivity|].
  split; [simpl; rewrite network_requests_app, app_nil_r; reflexivity|].
  split.
  { intros content. apply download_cached; [done|].
    simpl. subst p. rewrite lookup_insert_eq. eauto. }
  split; [by apply download_cached|].
  simpl. rewrite !network_requests_app, !app_nil_r. reflexivity.
Qed.

Lemma download_reuses_cached_file_witness :
  let self := fresh_instance in
  let url := "https://host/one.warc.gz" in
  let p := "./cc_download_warc/https%3A%2F%2Fhost%2Fone.warc.gz" in
  let w := Scenario.world_with p "truncated" in
  ∃ w1 w2 msg,
    download Scenario.demo self url w = (Return p, w1)
    ∧ trace w1 = (trace w ++ [EvLog INFO msg])%list
    ∧ files w1 = files w
    ∧ network_requests (trace w1) = network_requests (trace w)
    ∧ (∀ content,
         download Scenario.demo self url (set_files (<[p := content]>) w)
         = (Return p, log_event (EvLog INFO msg) (set_files (<[p := content]>) w)))
    ∧ download Scenario.demo self url w1 = (Return p, w2)
    ∧ network_requests (trace w2) = network_requests (trace w).
Proof.
  intros self url p w.
  apply (download_reuses_cached_file Scenario.demo self url w).
  - reflexivity.
  - vm_compute. eauto.
Defined.

(** *** The worker and the sink *)

Lemma log_events_nil w : log_events [] w = w.
Proof. destruct w. unfold log_events. simpl. by rewrite app_nil_r. Qed.

Lemma log_events_app es1 es2 w :
  log_events es2 (log_events es1 w) = log_events (es1 ++ es2) w.
Proof. unfold log_events. simpl. by rewrite app_assoc. Qed.

Lemma log_event_events e w : log_event e w = log_events [e] w.
Proof. reflexivity. Qed.

(** A worker returns the article of the record, or [None], and never raises. *)
Lemma process_warc_record_spec E r w :
  Example.process_warc_record E r w
  = (Return (article_of E r), log_events (worker_events E r) w).
Proof.
  unfold Example.process_warc_record, Example.call, article_of, worker_events,
    is_response, skip_warning, Example.is_Exception.
  unfold_py.
  destruct (String.eqb (rec_type r) "response"); [|by rewrite log_events_nil].
  destruct (from_warc E r) as [e|[a|]]; simpl; try reflexivity.
  - unfold log_events, log_event. simpl. by rewrite <- app_assoc.
  - destruct (json_dumps E a) as [e|s]; simpl; try reflexivity.
    unfold log_events, log_event. simpl. by rewrite <- app_assoc.
Qed.

Lemma pool_map_spec E batch w :
  Example.pool_map E batch w
  = (Return (List.map (article_of E) batch),
     log_events (List.concat (List.map (worker_events E) batch)) w).
Proof.
  revert w. induction batch as [|r batch IH]; intros w; simpl.
  - by rewrite log_events_nil.
  - unfold bind at 1. rewrite process_warc_record_spec.
    unfold bind at 1. rewrite IH. unfold ret. by rewrite log_events_app.
Qed.

Lemma quiet_events_facts es :
  forallb quiet_event es = true →
  removals es = [] ∧ checkpoint_appends es = [] ∧ network_requests es = [].
Proof.
  induction es as [|e es IH]; simpl; [done|].
  intros [He Hes]%andb_prop. destruct (IH Hes) as (H1 & H2 & H3).
  unfold removals, checkpoint_appends, network_requests in *. simpl.
  rewrite H1, H2, H3. by destruct e.
Qed.

Lemma worker_events_quiet E batch :
  forallb quiet_event (List.concat (List.map (worker_events E) batch)) = true
  ∧ sink_lines (List.concat (List.map (worker_events E) batch)) = [].
Proof.
  induction batch as [|r batch [IH1 IH2]]; simpl; [done|].
  rewrite forallb_app, sink_lines_app, IH1, IH2, app_nil_r, andb_true_r.
  unfold worker_events, skip_warning. destruct (is_response r); [|done].
  destruct (from_warc E r) as [e|[a|]]; try done.
  by destruct (json_dumps E a).
Qed.

Lemma write_articles_spec E out results : ∀ i n w,
  ∃ es w',
    Example.write_articles E out i n results w = (Return tt, w')
    ∧ trace w' = (trace w ++ es)%list
    ∧ sink_lines es = List.map sink_line (omap id results)
    ∧ forallb quiet_event es = true
    ∧ extraction_calls es = []
    ∧ (∀ p, p ≠ out → files w' !! p = files w !! p).
Proof.
  induction results as [|a results IH]; intros i n w.
  - exists [], w. simpl. rewrite app_nil_r. by repeat split.
  - cbn [Example.write_articles].
    destruct a as [a|]; destruct (i mod 100 =? 0)%nat;
      unfold Example.print_to; unfold_py;
      match goal with |- context [Example.write_articles E out (S i) n results ?w1] =>
        destruct (IH (S i) n w1) as (es & w' & Hrun & Htr & Hsink & Hq & Hx & Hf);
        rewrite Hrun
      end; simpl in Htr.
    + eexists (_ :: _ :: es), w'. split; [done|].
      rewrite Htr, <- !app_assoc. split; [done|]. simpl. rewrite Hsink, Hq.
      split; [done|]. split; [done|]. split; [by rewrite Hx|].
      intros p Hp. rewrite Hf by done. simpl. by rewrite lookup_insert_ne.
    + eexists (_ :: es), w'. split; [done|].
      rewrite Htr, <- !app_assoc. split; [done|]. simpl. rewrite Hsink, Hq.
      split; [done|]. split; [done|]. split; [by rewrite Hx|].
      intros p Hp. rewrite Hf by done. simpl. by rewrite lookup_insert_ne.
    + eexists (_ :: es), w'. split; [done|].
      rewrite Htr, <- !app_assoc. split; [done|]. simpl. rewrite Hsink, Hq.
      split; [done|]. split; [done|]. split; [by rewrite Hx|].
      intros p Hp. by rewrite Hf.
    + exists es, w'. split; [done|]. by repeat split.
Qed.

Lemma omap_id_map {A B} (f : A → option B) (l : list A) :
  omap id (List.map f l) = omap f l.
Proof.
  induction l as [|x l IH]; [done|].
  change (omap id (List.map f (x :: l)))
    with (match f x with Some y => y :: omap id (List.map f l) | None => omap id (List.map f l) end).
  change (omap f (x :: l))
    with (match f x with Some y => y :: omap f l | None => omap f l end).
  by rewrite IH.
Qed.

Lemma extraction_calls_workers E batch :
  extraction_calls (List.concat (List.map (worker_events E) batch))
  = List.filter is_response batch.
Proof.
  induction batch as [|r batch IH]; simpl; [done|].
  rewrite extraction_calls_app, IH. unfold worker_events, skip_warning.
  destruct (is_response r); [|done].
  destruct (from_warc E r) as [e|[a|]]; try done.
  by destruct (json_dumps E a).
Qed.

(** The callback of the example: it returns; the trace grows by the events
    of the workers and then by those of the writing loop, which writes the
    articles of the batch in the pool's completion order; no file but the
    sink and its marker is touched. *)
Lemma on_valid_article_extracted_spec E out batch w :
  ∃ es w',
    Example.on_valid_article_extracted E out batch w = (Return tt, w')
    ∧ trace w' = (trace w ++ List.concat (List.map (worker_events E) batch) ++ es)%list
    ∧ Permutation (sink_lines es) (List.map sink_line (omap (article_of E) batch))
    ∧ forallb quiet_event es = true
    ∧ extraction_calls es = []
    ∧ (∀ p, p ≠ out → p ≠ out ++ ".done" → files w' !! p = files w !! p).
Proof.
  unfold Example.on_valid_article_extracted, Example.imap_unordered,
    Example.gzip_open_wt.
  unfold bind at 1. unfold bind at 1. rewrite pool_map_spec. unfold ret at 1.
  unfold bind at 1. unfold modify at 1.
  unfold bind at 1.
  match goal with |- context [Example.write_articles E out 0 ?n ?rs ?w1] =>
    destruct (write_articles_spec E out rs 0 n w1) as (es & w' & Hrun & Htr & Hsink & Hq & Hx & Hf);
    rewrite Hrun
  end.
  unfold_py. simpl in Htr.
  eexists _, _. split; [reflexivity|]. simpl. rewrite Htr, <- !app_assoc.
  split; [reflexivity|].
  rewrite !sink_lines_app, Hsink. simpl. rewrite app_nil_r.
  split.
  { apply Permutation_map. rewrite (reorder_perm (pool_order E)).
    rewrite omap_id_map. reflexivity. }
  rewrite !forallb_app, Hq. split; [done|].
  rewrite !extraction_calls_app, Hx. simpl.
  split; [done|].
  intros p Hp1 Hp2. rewrite lookup_insert_ne by done. rewrite Hf by done.
  simpl. by rewrite lookup_insert_ne.
Qed.

Lemma yields_article_of E r : yields_article E r = bool_decide (is_Some (article_of E r)).
Proof.
  unfold yields_article, article_of. destruct (is_response r); simpl; [|done].
  destruct (from_warc E r) as [e|[a|]]; try done.
  by destruct (json_dumps E a).
Qed.

Lemma omap_article_of_length E batch :
  length (omap (article_of E) batch) = length (List.filter (yields_article E) batch).
Proof.
  induction batch as [|r batch IH]; [done|].
  change (omap (article_of E) (r :: batch))
    with (match article_of E r with
          | Some y => y :: omap (article_of E) batch
          | None => omap (article_of E) batch
          end).
  cbn [List.filter]. rewrite yields_article_of.
  destruct (article_of E r); cbn; by rewrite IH.
Qed.

Lemma is_response_false r : rec_type r ≠ "response" → is_response r = false.
Proof. intros H. unfold is_response. by apply String.eqb_neq. Qed.

(** The whole trace of the callback: lines of the sink and calls of the
    extractor. *)
Lemma callback_trace E outfile batch w :
  ∃ es w',
    Example.on_valid_article_extracted E outfile batch w = (Return tt, w')
    ∧ trace w' = (trace w ++ es)%list
    ∧ Permutation (sink_lines es) (List.map sink_line (omap (article_of E) batch))
    ∧ extraction_calls es = List.filter is_response batch.
Proof.
  destruct (on_valid_article_extracted_spec E outfile batch w)
    as (es & w' & Hrun & Htr & Hperm & Hq & Hx & Hf).
  destruct (worker_events_quiet E batch) as [_ Hws].
  eexists _, w'. split; [exact Hrun|]. split; [exact Htr|]. split.
  - by rewrite sink_lines_app, Hws.
  - by rewrite extraction_calls_app, Hx, extraction_calls_workers, app_nil_r.
Qed.

(** C2.  For every batch the callback returns normally.  A record on which
    the extractor raises is logged with a warning and yields nothing; the
    lines written to the sink are, up to the completion order of the pool,
    the articles of the records that yield one.  So a batch of 10 records,
    one raising and nine yielding an article, puts exactly 9 lines into the
    sink. *)
Theorem failing_record_is_isolated (E : env) (outfile : string)
    (batch : list warc_record) (w : world) :
  ∃ es w',
    Example.on_valid_article_extracted E outfile batch w = (Return tt, w')
    ∧ trace w' = (trace w ++ es)%list
    ∧ Permutation (sink_lines es) (List.map sink_line (omap (article_of E) batch))
    ∧ (∀ r, In r batch → extraction_raises E r = true →
         article_of E r = None
         ∧ ∃ e, from_warc E r = inl e ∧ In (skip_warning e) es)
    ∧ (∀ r, In r batch → yields_article E r = true →
         ∃ a, article_of E r = Some a ∧ In (sink_line a) (sink_lines es))
    ∧ length (sink_lines es) = length (List.filter (yields_article E) batch)
    ∧ (length batch = 10 →
       length (List.filter (extraction_raises E) batch) = 1 →
       length (List.filter (yields_article E) batch) = 9 →
       length (sink_lines es) = 9).
Proof.
  destruct (on_valid_article_extracted_spec E outfile batch w)
    as (es & w' & Hrun & Htr & Hperm & Hq & Hx & Hf).
  destruct (worker_events_quiet E batch) as [_ Hws].
  eexists _, w'. split; [exact Hrun|]. split; [exact Htr|].
  assert (Hall : Permutation
            (sink_lines (List.concat (List.map (worker_events E) batch) ++ es))
            (List.map sink_line (omap (article_of E) batch))).
  { by rewrite sink_lines_app, Hws. }
  assert (Hlen : length (sink_lines (List.concat (List.map (worker_events E) batch) ++ es))
                 = length (List.filter (yields_article E) batch)).
  { rewrite (Permutation_length Hall), length_map. apply omap_article_of_length. }
  split; [exact Hall|]. split; [|split; [|split; [exact Hlen|]]].
  - intros r Hin Hraise. unfold extraction_raises in Hraise.
    apply andb_prop in Hraise as [Hresp Hraise].
    destruct (from_warc E r) as [e|oa] eqn:Hfw; [|done].
    split; [unfold article_of; by rewrite Hresp, Hfw|].
    exists e. split; [done|]. apply in_or_app. left.
    apply in_concat. exists (worker_events E r). split; [by apply in_map|].
    unfold worker_events. rewrite Hresp, Hfw. right. by left.
  - intros r Hin Hy. rewrite yields_article_of in Hy.
    apply bool_decide_eq_true in Hy as [a Ha]. exists a. split; [done|].
    apply (Permutation_in _ (Permutation_sym Hall)).
    apply in_map. apply list_elem_of_In, list_elem_of_omap. exists r.
    split; [by apply list_elem_of_In|done].
  - intros _ _ H9. by rewrite Hlen.
Qed.

Lemma failing_record_is_isolated_witness :
  let batch := List.map materialized (entries_of (Scenario.parser "ten")) in
  length batch = 10
  ∧ length (List.filter (extraction_raises Scenario.demo) batch) = 1
  ∧ length (List.filter (yields_article Scenario.demo) batch) = 9
  ∧ ∃ es w',
      Example.on_valid_article_extracted Scenario.demo "out.gz" batch Scenario.empty_world
      = (Return tt, w')
      ∧ length (sink_lines es) = 9.
Proof.
  intros batch.
  split; [reflexivity|]. split; [reflexivity|]. split; [reflexivity|].
  destruct (failing_record_is_isolated Scenario.demo "out.gz" batch Scenario.empty_world)
    as (es & w' & Hrun & _ & _ & _ & _ & _ & H9).
  exists es, w'. split; [exact Hrun|]. apply H9; reflexivity.
Defined.

(** C10.  A record whose type is not [response] makes the worker return
    [None] and leaves the world as it was: the extractor is not called and
    nothing is logged.  In a batch, such a record is never handed to the
    extractor and the sink receives what the other records yield.  The worker
    takes no host or date criteria. *)
Theorem non_response_record_is_skipped (E : env) (r : warc_record) (w : world) :
  rec_type r ≠ "response" →
  Example.process_warc_record E r w = (Return None, w)
  ∧ ∀ (outfile : string) (b1 b2 : list warc_record) (w0 : world),
      ∃ es w',
        Example.on_valid_article_extracted E outfile (b1 ++ r :: b2) w0 = (Return tt, w')
        ∧ trace w' = (trace w0 ++ es)%list
        ∧ ¬ In r (extraction_calls es)
        ∧ Permutation (sink_lines es)
            (List.map sink_line (omap (article_of E) (b1 ++ b2)%list)).
Proof.
  intros Htype. pose proof (is_response_false r Htype) as Hresp. split.
  { rewrite process_warc_record_spec. unfold article_of, worker_events.
    rewrite Hresp. by rewrite log_events_nil. }
  intros outfile b1 b2 w0.
  destruct (callback_trace E outfile (b1 ++ r :: b2)%list w0)
    as (es & w' & Hrun & Htr & Hperm & Hcalls).
  exists es, w'. split; [done|]. split; [done|]. split.
  - rewrite Hcalls. intros Hin. apply filter_In in Hin as [_ Hin]. congruence.
  - rewrite Hperm. apply Permutation_map.
    rewrite !omap_app. apply Permutation_app_head.
    change (omap (article_of E) (r :: b2))
      with (match article_of E r with
            | Some y => y :: omap (article_of E) b2
            | None => omap (article_of E) b2
            end).
    unfold article_of at 1. by rewrite Hresp.
Qed.

(** *** Materialising the records of a container *)

Lemma iterator_next_spec prev e w :
  ∃ w', iterator_next prev e w
        = (Return {| rec_type := entry_type e; rec_headers := entry_headers e;
                     raw_stream := Some (next_stream w); read_stream := None |}, w')
        ∧ streams w' !! next_stream w = Some (entry_payload e)
        ∧ files w' = files w ∧ dirs w' = dirs w ∧ trace w' = trace w.
Proof.
  unfold iterator_next, read_to_end. destruct prev as [h|]; unfold_py; cbn;
    (eexists; split; [reflexivity|]); cbn; rewrite lookup_insert_eq; done.
Qed.

Lemma read_record_spec r h data w :
  raw_stream r = Some h → streams w !! h = Some data →
  ∃ w', read_record r w
        = (Return {| rec_type := rec_type r; rec_headers := rec_headers r;
                     raw_stream := Some h; read_stream := Some data |}, w')
        ∧ files w' = files w ∧ dirs w' = dirs w ∧ trace w' = trace w.
Proof.
  intros Hr Hs. unfold read_record. rewrite Hr. unfold_py. rewrite Hs. cbn.
  eexists. split; [reflexivity|]. done.
Qed.

(** Reading each record as the iterator yields it gets the whole payload of
    every entry; a parse error ends the iteration with [ArchiveLoadFailed]. *)
Lemma list_map_iterator_read (a : archive) : ∀ prev w,
  ∃ w1, files w1 = files w ∧ dirs w1 = dirs w ∧ trace w1 = trace w ∧
    match parse_error a with
    | None => ∃ rs, list_map_iterator read_record a prev w = (Return rs, w1)
                    ∧ Forall2 loaded_from rs (entries_of a)
    | Some msg =>
        list_map_iterator read_record a prev w = (Raise (PyExc ArchiveLoadFailed msg), w1)
    end.
Proof.
  induction a as [|e rest IH|msg]; intros prev w.
  - destruct prev as [h|];
      [exists (set_streams (<[h := ""]>) w) | exists w];
      repeat (split; [reflexivity|]); exists []; (split; [reflexivity|constructor]).
  - cbn [list_map_iterator parse_error entries_of].
    destruct (iterator_next_spec prev e w) as (wa & Hnext & Hsa & Hfa & Hda & Hta).
    destruct (read_record_spec
                {| rec_type := entry_type e; rec_headers := entry_headers e;
                   raw_stream := Some (next_stream w); read_stream := None |}
                _ _ wa eq_refl Hsa) as (wb & Hread & Hfb & Hdb & Htb).
    cbn [rec_type rec_headers] in Hread.
    destruct (IH (Some (next_stream w)) wb) as (w1 & Hf & Hd & Ht & Hres).
    exists w1.
    split; [congruence|]. split; [congruence|]. split; [congruence|].
    destruct (parse_error rest) as [msg|].
    + unfold bind at 1. rewrite Hnext. unfold bind at 1. rewrite Hread.
      unfold bind at 1. cbn [raw_stream]. by rewrite Hres.
    + destruct Hres as (rs & Hrun & Hall).
      unfold bind at 1. rewrite Hnext. unfold bind at 1. rewrite Hread.
      unfold bind at 1. cbn [raw_stream]. rewrite Hrun.
      eexists. split; [reflexivity|]. constructor; [|done].
      unfold loaded_from. simpl. eauto.
  - destruct prev as [h|];
      [exists (set_streams (<[h := ""]>) w) | exists w];
      repeat (split; [reflexivity|]); reflexivity.
Qed.

Lemma list_map_delete_raw_stream rs es w :
  Forall2 loaded_from rs es →
  list_map delete_raw_stream rs w = (Return (List.map materialized es), w).
Proof.
  intros H. revert w. induction H as [|r e rs es (Ht & Hh & [h Hs] & Hr) _ IH]; intros w.
  - reflexivity.
  - cbn [list_map List.map]. unfold delete_raw_stream at 1. rewrite Hs.
    unfold_py. rewrite IH. unfold materialized at 1. by rewrite Ht, Hh, Hr.
Qed.

(** What [process_warc_gz_file] does with an existing file: for a container
    that parses, one log line and then the callback on the materialised
    records; for one that does not, the parser's error and no callback. *)
Lemma process_warc_gz_file_spec E self path w bytes :
  files w !! path = Some bytes →
  ∃ w1, files w1 = files w ∧ dirs w1 = dirs w ∧
    match parse_error (archive_iterator E bytes) with
    | None =>
        let entries := entries_of (archive_iterator E bytes) in
        trace w1 = (trace w ++ [EvLog INFO ("Extracting " ++ pretty (length entries)
                                            ++ " records")])%list
        ∧ process_warc_gz_file E self path w
          = callback_on_article_extracted self (List.map materialized entries) w1
    | Some msg =>
        trace w1 = trace w
        ∧ process_warc_gz_file E self path w = (Raise (PyExc ArchiveLoadFailed msg), w1)
    end.
Proof.
  intros Hfile.
  assert (Hopen : ∀ k : string → M unit,
            (w0 <- get_world ;;
             match files w0 !! path with
             | Some stream => k stream
             | None => raise FileNotFoundError path
             end) w = k bytes w).
  { intros k. unfold_py. by rewrite Hfile. }
  unfold process_warc_gz_file. rewrite Hopen. clear Hopen.
  destruct (list_map_iterator_read (archive_iterator E bytes) None w)
    as (w1 & Hf & Hd & Ht & Hres).
  destruct (parse_error (archive_iterator E bytes)) as [msg|].
  - exists w1. split; [done|]. split; [done|]. split; [done|].
    unfold bind at 1. by rewrite Hres.
  - destruct Hres as (rs & Hrun & Hall).
    exists (log_event (EvLog INFO ("Extracting " ++ pretty (length rs) ++ " records")) w1).
    split; [done|]. split; [done|]. cbn zeta.
    rewrite <- (Forall2_length _ _ _ Hall). split; [simpl; by rewrite Ht|].
    unfold bind at 1. rewrite Hrun. unfold bind at 1. unfold logger, emit.
    unfold bind at 1. by rewrite (list_map_delete_raw_stream _ _ _ Hall).
Qed.

(** C7.  Opening an archive file that parses hands the callback, once, the
    sequence of all its records in file order; every record of the sequence
    has the payload of its entry in memory ([read_stream]) and no stream
    handle ([raw_stream] removed).  Before the callback runs only a log line
    is added.  When the container does not parse, the callback is not run. *)
Theorem records_are_materialized_in_order (E : env) (self : config) (path : string)
    (w : world) (bytes : string) :
  files w !! path = Some bytes →
  let entries := entries_of (archive_iterator E bytes) in
  let records := List.map materialized entries in
  match parse_error (archive_iterator E bytes) with
  | None =>
      ∃ w1,
        process_warc_gz_file E self path w = callback_on_article_extracted self records w1
        ∧ files w1 = files w
        ∧ trace w1 = (trace w ++ [EvLog INFO ("Extracting " ++ pretty (length entries)
                                              ++ " records")])%list
        ∧ length records = length entries
        ∧ ∀ i e, entries !! i = Some e →
            ∃ r, records !! i = Some r
                 ∧ rec_type r = entry_type e ∧ rec_headers r = entry_headers e
                 ∧ read_stream r = Some (entry_payload e) ∧ raw_stream r = None
  | Some msg =>
      ∃ w1, process_warc_gz_file E self path w = (Raise (PyExc ArchiveLoadFailed msg), w1)
            ∧ files w1 = files w ∧ trace w1 = trace w
  end.
Proof.
  intros Hfile entries records.
  destruct (process_warc_gz_file_spec E self path w bytes Hfile) as (w1 & Hf & Hd & Hres).
  destruct (parse_error (archive_iterator E bytes)) as [msg|].
  - destruct Hres as [Ht Hrun]. by exists w1.
  - destruct Hres as [Ht Hrun]. exists w1.
    split; [exact Hrun|]. split; [done|]. split; [exact Ht|].
    split; [apply length_map|].
    intros i e Hi. exists (materialized e). split; [|done].
    subst records. by rewrite list_lookup_fmap, Hi.
Qed.

Lemma records_are_materialized_in_order_witness :
  let E := Scenario.demo in
  let self := fresh_instance in
  let w := Scenario.world_with "f.warc.gz" "ten" in
  let entries := entries_of (archive_iterator E "ten") in
  let records := List.map materialized entries in
  ∃ w1,
    process_warc_gz_file E self "f.warc.gz" w = callback_on_article_extracted self records w1
    ∧ files w1 = files w
    ∧ trace w1 = (trace w ++ [EvLog INFO ("Extracting " ++ pretty (length entries)
                                          ++ " records")])%list
    ∧ length records = length entries
    ∧ ∀ i e, entries !! i = Some e →
        ∃ r, records !! i = Some r
             ∧ rec_type r = entry_type e ∧ rec_headers r = entry_headers e
             ∧ read_stream r = Some (entry_payload e) ∧ raw_stream r = None.
Proof.
  intros E self w entries records.
  apply (records_are_materialized_in_order E self "f.warc.gz" w "ten").
  vm_compute. reflexivity.
Defined.

(** *** Resolving the publish date *)

(** C5 (as stated, refuted).  On an article whose [publish_date] is present
    but is not a date, or is not a string at all, [get_publishing_date]
    raises: it has failure modes. *)
Lemma get_publishing_date_can_raise :
  let r := materialized (Scenario.entry "a.org" "text") in
  get_publishing_date Scenario.demo fresh_instance r
    [("title", VStr "text"); ("publish_date", VStr "not a date")] Scenario.empty_world
  = (Raise (PyExc ParserError "Unknown string format: not a date"), Scenario.empty_world)
  ∧ get_publishing_date Scenario.demo fresh_instance r
      [("title", VStr "text"); ("publish_date", VNone)] Scenario.empty_world
    = (Raise (PyExc TypeError "Parser must be a string or character stream"),
       Scenario.empty_world).
Proof. split; reflexivity. Qed.

(** C5 (amended).  [get_publishing_date] changes nothing in the world.  An
    article without a [publish_date] field resolves to no date, without an
    error.  A field that is present goes to the date parser: a string of the
    parser's grammar gives its date, any other string raises [ParserError]
    and a value that is not a string raises [TypeError]. *)
Theorem get_publishing_date_outcome (E : env) (self : config) (r : warc_record)
    (a : article) (w : world) :
  get_publishing_date E self r a w =
  (match dict_get "publish_date" a with
   | None => Return None
   | Some (VStr s) =>
       match dateutil_lex E s with
       | Some d => Return (Some d)
       | None => Raise (PyExc ParserError ("Unknown string format: " ++ s))
       end
   | Some _ => Raise (PyExc TypeError "Parser must be a string or character stream")
   end, w).
Proof.
  unfold get_publishing_date, dict_contains, getattr, parser_parse.
  destruct (dict_get "publish_date" a) as [[|s|d]|]; unfold_py; try reflexivity.
  by destruct (dateutil_lex E s).
Qed.

(** *** Listing the remote index *)

(** C6 (as stated, refuted).  Without the [aws] tool the listing cannot be
    made, and [get_remote_index] returns: its one "name" is the shell's
    error message. *)
Lemma get_remote_index_returns_without_aws :
  fst (get_remote_index (Scenario.env_with Scenario.aws_missing Scenario.in_order)
         fresh_instance Scenario.empty_world)
  = Return ["/bin/sh: 1: aws: not found"].
Proof. reflexivity. Qed.

(** C6 (amended).  [get_remote_index] always returns a list: the lines of
    what the shell printed, which after a failed listing are the lines of the
    error output.  The listing file is removed first, so the listing command
    starts without it; after a failed listing the file that the redirection
    created is still there, after a successful one it is gone. *)
Theorem get_remote_index_outcome (E : env) (self : config) (w : world) :
  let aws := aws_s3_ls E in
  let printed := if p_ok aws then p_stderr aws ++ Shell.awk_print4 (p_stdout aws)
                 else p_stderr aws in
  ∃ out0 w0 w',
    subprocess_getoutput E Shell.RmListing w = (Return out0, w0)
    ∧ files w0 !! Shell.tmp_listing = None
    ∧ get_remote_index E self w
      = (logger INFO ("executing: " ++ Shell.command_text Shell.ListIndex) ;;;
         stdout_data <- subprocess_getoutput E Shell.ListIndex ;;
         print stdout_data ;;;
         ret (Py.splitlines stdout_data)) w0
    ∧ get_remote_index E self w
      = (Return (Py.splitlines (Py.strip_trailing_newline printed)), w')
    ∧ files w' !! Shell.tmp_listing = (if p_ok aws then None else Some (p_stdout aws)).
Proof.
  intros aws printed. subst printed aws.
  unfold get_remote_index, subprocess_getoutput. unfold_py.
  cbn [Shell.sh files log_event].
  destruct (files w !! Shell.tmp_listing) eqn:Htmp; cbn;
    destruct (p_ok (aws_s3_ls E)); cbn;
    eexists _, _, _;
    (split; [reflexivity|]);
    (split; [cbn; by rewrite ?lookup_delete_eq|]);
    (split; [reflexivity|]); (split; [reflexivity|]); cbn;
    by rewrite ?lookup_delete_eq, ?lookup_insert_eq.
Qed.

(** *** The run as a whole *)

Lemma setup_spec self w :
  ∃ es w1, setup self w = (Return tt, w1)
    ∧ files w1 = files w
    ∧ trace w1 = (trace w ++ es)%list
    ∧ (es = [] ∨ es = [EvMakedirs (local_download_dir_warc self)]).
Proof.
  unfold setup. unfold_py.
  destruct (bool_decide (is_Some (files w !! local_download_dir_warc self))
            || bool_decide (local_download_dir_warc self ∈ dirs w)).
  - exists [], w. rewrite app_nil_r. eauto.
  - eexists [_], _. split; [reflexivity|]. simpl. eauto.
Qed.

Lemma removals_nil_app es1 es2 :
  removals es1 = [] → removals es2 = [] → removals (es1 ++ es2) = [].
Proof. intros H1 H2. by rewrite removals_app, H1, H2. Qed.

Lemma checkpoint_appends_nil_app es1 es2 :
  checkpoint_appends es1 = [] → checkpoint_appends es2 = [] →
  checkpoint_appends (es1 ++ es2) = [].
Proof. intros H1 H2. by rewrite checkpoint_appends_app, H1, H2. Qed.

(** The trace of [run] with the callback of the example: the events of
    [setup], then the deletion of a stale file if there is one, then events
    among which there is neither a deletion nor a checkpoint line. *)
Lemma run_trace E self outfile w :
  callback_on_article_extracted self = Example.on_valid_article_extracted E outfile →
  let p := local_filepath self (warc_download_url self) in
  let stale := bool_decide (is_Some (files w !! p))
               && negb (reuse_previously_downloaded_files self) in
  ∃ es_setup es_rest,
    trace (snd (run E self w))
    = (trace w ++ es_setup ++ (if stale then [EvRemove p] else []) ++ es_rest)%list
    ∧ (es_setup = [] ∨ es_setup = [EvMakedirs (local_download_dir_warc self)])
    ∧ removals es_rest = [] ∧ checkpoint_appends es_rest = [].
Proof.
  intros Hcb p stale.
  destruct (setup_spec self w) as (es0 & w0 & Hsetup & Hf0 & Ht0 & Hes0).
  destruct (download_trace E self (warc_download_url self) w0)
    as (o & w1 & es1 & Hdl & Ht1 & Hr1 & Hc1 & _ & _).
  cbv zeta in Ht1. rewrite Hf0 in Ht1. fold p stale in Ht1.
  unfold run. unfold bind at 1. rewrite Hsetup. unfold bind at 1. rewrite Hdl.
  destruct o as [p0|e|].
  - destruct (download_returns_file _ _ _ _ _ _ Hdl) as [-> [bytes Hbytes]].
    destruct (process_warc_gz_file_spec E self _ w1 bytes Hbytes) as (w2 & _ & _ & Hres).
    unfold bind at 1.
    destruct (parse_error (archive_iterator E bytes)) as [msg|].
    + destruct Hres as [Ht2 ->]. cbn. exists es0, es1.
      rewrite Ht2, Ht1, Ht0, <- !app_assoc. done.
    + destruct Hres as [Ht2 ->]. rewrite Hcb.
      destruct (on_valid_article_extracted_spec E outfile
                  (List.map materialized (entries_of (archive_iterator E bytes))) w2)
        as (es3 & w3 & -> & Ht3 & _ & Hq3 & _ & _).
      destruct (worker_events_quiet E
                  (List.map materialized (entries_of (archive_iterator E bytes))))
        as [Hqw _].
      destruct (quiet_events_facts _ Hq3) as (Hr3 & Hc3 & _).
      destruct (quiet_events_facts _ Hqw) as (Hrw & Hcw & _).
      cbn [snd]. unfold sys_exit. cbn [snd].
      match type of Ht2 with
      | _ = (_ ++ ?l)%list =>
          exists es0,
            (es1 ++ l ++ List.concat (List.map (worker_events E)
               (List.map materialized (entries_of (archive_iterator E bytes)))) ++ es3)%list
      end.
      rewrite Ht3, Ht2, Ht1, Ht0, <- !app_assoc. split; [reflexivity|].
      split; [done|]. split.
      * repeat apply removals_nil_app; done.
      * repeat apply checkpoint_appends_nil_app; done.
  - cbn. exists es0, es1. rewrite Ht1, Ht0, <- !app_assoc. done.
  - cbn. exists es0, es1. rewrite Ht1, Ht0, <- !app_assoc. done.
Qed.

(** In a run with the callback of the example, the download step may delete
    a file that is at the local path and is not reused, right after [setup]
    and ahead of the network request; nothing else is deleted and no line is
    appended to the checkpoint log. *)
Lemma run_deletes_only_before_download (E : env) (self : config) (url outfile : string)
    (valid_hosts : option (list string)) (start_date end_date : option datetime)
    (strict_date reuse : bool) (download_dir : option string)
    (continue_after_error show_progress : bool) (level : logging_level)
    (delete_after : bool) (log_pathname : option string) (w : world) :
  let callback := Example.on_valid_article_extracted E outfile in
  let self' := assign self url callback valid_hosts start_date end_date strict_date
                 reuse download_dir continue_after_error show_progress level
                 delete_after log_pathname in
  let p := Py.os_path_join (local_download_dir_warc self') (Py.quote_plus url) in
  let stale := bool_decide (is_Some (files w !! p)) && negb reuse in
  ∃ es_setup es_rest,
    trace (snd (extract_from_commoncrawl E self url callback valid_hosts start_date
                  end_date strict_date reuse download_dir continue_after_error
                  show_progress level delete_after log_pathname w))
    = (trace w ++ es_setup ++ (if stale then [EvRemove p] else []) ++ es_rest)%list
    ∧ (es_setup = [] ∨ es_setup = [EvMakedirs (local_download_dir_warc self')])
    ∧ removals es_rest = []
    ∧ checkpoint_appends es_rest = [].
Proof.
  intros callback self' p stale.
  apply (run_trace E self' outfile w). reflexivity.
Qed.

(** What follows the download step in a run with the callback of the
    example: a trace without any deletion, and the local file untouched
    unless it is the sink or its marker. *)
Lemma after_download E self outfile p w2 :
  callback_on_article_extracted self = Example.on_valid_article_extracted E outfile →
  is_Some (files w2 !! p) →
  ∃ es,
    trace (snd ((process_warc_gz_file E self p ;;; @sys_exit unit) w2)) = (trace w2 ++ es)%list
    ∧ removals es = []
    ∧ checkpoint_appends es = []
    ∧ (p ≠ outfile → p ≠ outfile ++ ".done" →
       files (snd ((process_warc_gz_file E self p ;;; @sys_exit unit) w2)) !! p
       = files w2 !! p).
Proof.
  intros Hcb [bytes Hbytes].
  destruct (process_warc_gz_file_spec E self p w2 bytes Hbytes) as (w3 & Hf3 & _ & Hres).
  unfold bind at 1. unfold bind at 1.
  destruct (parse_error (archive_iterator E bytes)) as [msg|].
  - destruct Hres as [Ht3 ->]. cbn [snd]. exists []. rewrite app_nil_r.
    split; [done|]. split; [done|]. split; [done|]. intros _ _. by rewrite Hf3.
  - destruct Hres as [Ht3 ->]. rewrite Hcb.
    destruct (on_valid_article_extracted_spec E outfile
                (List.map materialized (entries_of (archive_iterator E bytes))) w3)
      as (es3 & w' & -> & Ht' & _ & Hq3 & _ & Hframe).
    destruct (worker_events_quiet E
                (List.map materialized (entries_of (archive_iterator E bytes))))
      as [Hqw _].
    destruct (quiet_events_facts _ Hq3) as (Hr3 & Hc3 & _).
    destruct (quiet_events_facts _ Hqw) as (Hrw & Hcw & _).
    unfold sys_exit. cbn [snd].
    match type of Ht3 with
    | _ = (_ ++ ?l)%list =>
        exists (l ++ List.concat (List.map (worker_events E)
                  (List.map materialized (entries_of (archive_iterator E bytes)))) ++ es3)%list
    end.
    rewrite Ht', Ht3, <- !app_assoc. split; [reflexivity|]. split; [|split].
    + repeat apply removals_nil_app; done.
    + repeat apply checkpoint_appends_nil_app; done.
    + intros Hp1 Hp2. by rewrite Hframe, Hf3.
Qed.

(** C8.  In every run (with the callback of the example), once the download
    step has returned the local file nothing deletes it: the events that
    follow hold no deletion at all, so every deletion of the local file among
    them comes after a checkpoint line for the URL, and at the end of the run
    the file is still there with the bytes the download step left (unless the
    output file or its marker was given the same path).  No checkpoint line
    is appended in the run either. *)
Theorem local_file_never_deleted_before_checkpoint (E : env) (self : config)
    (url outfile : string)
    (valid_hosts : option (list string)) (start_date end_date : option datetime)
    (strict_date reuse : bool) (download_dir : option string)
    (continue_after_error show_progress : bool) (level : logging_level)
    (delete_after : bool) (log_pathname : option string) (w w1 w2 : world) :
  let callback := Example.on_valid_article_extracted E outfile in
  let self' := assign self url callback valid_hosts start_date end_date strict_date
                 reuse download_dir continue_after_error show_progress level
                 delete_after log_pathname in
  let p := Py.os_path_join (local_download_dir_warc self') (Py.quote_plus url) in
  let r := extract_from_commoncrawl E self url callback valid_hosts start_date end_date
             strict_date reuse download_dir continue_after_error show_progress level
             delete_after log_pathname w in
  setup self' w = (Return tt, w1) →
  download E self' url w1 = (Return p, w2) →
  ∃ es,
    trace (snd r) = (trace w2 ++ es)%list
    ∧ (∀ before after, es = (before ++ EvRemove p :: after)%list →
         ∃ log, In (EvAppendLine log (url ++ String "010" "")) before)
    ∧ removals es = []
    ∧ checkpoint_appends es = []
    ∧ is_Some (files w2 !! p)
    ∧ (p ≠ outfile → p ≠ outfile ++ ".done" → files (snd r) !! p = files w2 !! p).
Proof.
  intros callback self' p r Hsetup Hdl.
  destruct (download_returns_file _ _ _ _ _ _ Hdl) as [_ Hfile].
  fold p in Hfile.
  destruct (after_download E self' outfile p w2 eq_refl Hfile)
    as (es & Htr & Hrm & Hcp & Hframe).
  assert (Hr : snd r = snd ((process_warc_gz_file E self' p ;;; @sys_exit unit) w2)).
  { subst r. unfold extract_from_commoncrawl, run. fold callback. fold self'.
    unfold bind at 1. rewrite Hsetup. unfold bind at 1.
    change (warc_download_url self') with url. by rewrite Hdl. }
  exists es. rewrite Hr. split; [exact Htr|]. split.
  { intros before after Hes. rewrite Hes, removals_app in Hrm.
    apply app_eq_nil in Hrm as [_ Hrm]. discriminate Hrm. }
  split; [exact Hrm|]. split; [exact Hcp|]. split; [exact Hfile|exact Hframe].
Qed.

Lemma local_file_never_deleted_before_checkpoint_witness :
  let E := Scenario.demo in
  let url := "https://host/one.warc.gz" in
  let p := "./cc_download_warc/https%3A%2F%2Fhost%2Fone.warc.gz" in
  let w := Scenario.world_with p "stale" in
  let r := extract_from_commoncrawl E fresh_instance url
             (Example.on_valid_article_extracted E "out.gz")
             None None None true false None true false INFO true (Some "done.log") w in
  removals (trace (snd r)) = [p]
  ∧ files (snd r) !! p = Some "one"
  ∧ ∃ w2 es,
      trace (snd r) = (trace w2 ++ es)%list
      ∧ removals es = []
      ∧ files w2 !! p = Some "one".
Proof.
  intros E url p w r.
  split; [vm_compute; reflexivity|]. split; [vm_compute; reflexivity|].
  edestruct (local_file_never_deleted_before_checkpoint E fresh_instance url "out.gz"
               None None None true false None true false INFO true (Some "done.log") w)
    as (es & Htr & _ & Hrm & _ & _ & _).
  - eval_lhs.
  - eval_lhs.
  - eexists _, es. split; [exact Htr|]. split; [exact Hrm|]. vm_compute. reflexivity.
Defined.

(** A computation that ends in [sys.exit()] does not return. *)
Lemma bind_never_returns {A B} (m : M A) (k : A → M B) w :
  (∀ a w', ∀ b, fst (k a w') ≠ Return b) → ∀ b, fst (bind m k w) ≠ Return b.
Proof.
  intros Hk b. unfold bind. destruct (m w) as [[a|e|] w']; [apply Hk|done|done].
Qed.

Lemma run_never_returns E self w : ∀ b, fst (run E self w) ≠ Return b.
Proof.
  unfold run. apply bind_never_returns. intros _ w1.
  apply bind_never_returns. intros p w2.
  apply bind_never_returns. intros _ w3. done.
Qed.

(** C9.  [extract_from_commoncrawl] never returns normally.  When the
    download and the processing of the file succeed, the call ends in
    [SystemExit], in the very world the callback left: nothing happens after
    the callback.  The call does the same whatever
    [delete_warc_after_extraction] and [log_pathname_fully_extracted_warcs]
    are; with the callback of the example no line is appended to a checkpoint
    log and nothing is deleted after the download. *)
Theorem extract_from_commoncrawl_exits (E : env) (self : config) (url : string)
    (callback : list warc_record → M unit)
    (valid_hosts : option (list string)) (start_date end_date : option datetime)
    (strict_date reuse : bool) (download_dir : option string)
    (continue_after_error show_progress : bool) (level : logging_level)
    (delete_after : bool) (log_pathname : option string) (w : world) :
  let self' := assign self url callback valid_hosts start_date end_date strict_date
                 reuse download_dir continue_after_error show_progress level
                 delete_after log_pathname in
  let r := extract_from_commoncrawl E self url callback valid_hosts start_date end_date
             strict_date reuse download_dir continue_after_error show_progress level
             delete_after log_pathname w in
  fst r ≠ Return tt
  ∧ (∀ w1 p w2 w3,
       setup self' w = (Return tt, w1) →
       download E self' url w1 = (Return p, w2) →
       process_warc_gz_file E self' p w2 = (Return tt, w3) →
       r = (SysExit, w3))
  ∧ (∀ delete_after' log_pathname',
       extract_from_commoncrawl E self url callback valid_hosts start_date end_date
         strict_date reuse download_dir continue_after_error show_progress level
         delete_after' log_pathname' w = r)
  ∧ (∀ outfile, callback = Example.on_valid_article_extracted E outfile →
       checkpoint_appends (trace (snd r)) = checkpoint_appends (trace w)
       ∧ ∃ es_setup es_rest,
           trace (snd r)
           = (trace w ++ es_setup
              ++ (if bool_decide (is_Some (files w !! local_filepath self' url)) && negb reuse
                  then [EvRemove (local_filepath self' url)] else [])
              ++ es_rest)%list
           ∧ removals es_rest = []).
Proof.
  intros self' r. split; [apply run_never_returns|]. split; [|split].
  - intros w1 p w2 w3 Hsetup Hdl Hproc. subst r.
    unfold extract_from_commoncrawl, run. fold self'.
    unfold bind at 1. rewrite Hsetup. unfold bind at 1.
    change (warc_download_url self') with url. rewrite Hdl.
    unfold bind at 1. rewrite Hproc. reflexivity.
  - intros delete_after' log_pathname'. reflexivity.
  - intros outfile Hcb.
    destruct (run_trace E self' outfile w Hcb) as (es0 & es1 & Ht & Hes0 & Hr & Hc).
    change (warc_download_url self') with url in Ht.
    change (reuse_previously_downloaded_files self') with reuse in Ht.
    change (snd (run E self' w)) with (snd r) in Ht. split.
    + rewrite Ht, !checkpoint_appends_app, Hc.
      destruct Hes0 as [-> | ->];
        destruct (bool_decide _ && negb reuse); simpl; by rewrite ?app_nil_r.
    + by exists es0, es1.
Qed.

Lemma extract_from_commoncrawl_exits_witness :
  let w := Scenario.empty_world in
  let r := extract_from_commoncrawl Scenario.demo fresh_instance
             "https://host/one.warc.gz"
             (Example.on_valid_article_extracted Scenario.demo "out.gz")
             None None None true true None true false INFO true (Some "done.log") w in
  (∃ w3, r = (SysExit, w3))
  ∧ checkpoint_appends (trace (snd r)) = checkpoint_appends (trace w).
Proof.
  intros w r.
  destruct (extract_from_commoncrawl_exits Scenario.demo fresh_instance
              "https://host/one.warc.gz"
              (Example.on_valid_article_extracted Scenario.demo "out.gz")
              None None None true true None true false INFO true (Some "done.log") w)
    as (_ & Hexit & _ & Hquiet).
  split.
  - eexists. eapply Hexit; eval_lhs.
  - apply (Hquiet "out.gz"). reflexivity.
Defined.

Lemma non_response_record_is_skipped_witness :
  let r := {| rec_type := "request"; rec_headers := [("host", "a.org")];
              raw_stream := None; read_stream := Some "GET / HTTP/1.1" |} in
  rec_type r ≠ "response"
  ∧ Example.process_warc_record Scenario.demo r Scenario.empty_world
    = (Return None, Scenario.empty_world).
Proof.
  intros r.
  assert (Htype : rec_type r ≠ "response") by (simpl; discriminate).
  split; [exact Htype|].
  exact (proj1 (non_response_record_is_skipped Scenario.demo r Scenario.empty_world Htype)).
Defined.

(** *** The filter criteria *)

(** The run does not depend on the host list, on the dates or on the strict
    date flag. *)
Lemma criteria_are_ignored E self url callback hosts hosts' sd sd' ed ed' strict strict'
    reuse dir cont show level del logp w :
  extract_from_commoncrawl E self url callback hosts sd ed strict reuse dir cont show
    level del logp w
  = extract_from_commoncrawl E self url callback hosts' sd' ed' strict' reuse dir cont
      show level del logp w.
Proof. reflexivity. Qed.

(** C3 (the code at the failing input).  With [valid_hosts = ['example.com']]
    and an archive whose one record is a page of [other.org], the run writes
    the article of [other.org] to the sink: the host list is stored and never
    consulted. *)
Theorem host_filter_is_not_applied :
  let valid_hosts := ["example.com"] in
  let r := extract_from_commoncrawl Scenario.demo fresh_instance
             "https://host/one.warc.gz"
             (Example.on_valid_article_extracted Scenario.demo "out.gz")
             (Some valid_hosts) None None true true None true false INFO true None
             Scenario.empty_world in
  let record := materialized (Scenario.entry "other.org" "Some text") in
  let a := [("source_domain", VStr "other.org"); ("title", VStr "Some text")] in
  from_warc Scenario.demo record = inr (Some a)
  ∧ ¬ In "other.org" valid_hosts
  ∧ fst r = SysExit
  ∧ sink_lines (trace (snd r)) = ["source_domain:other.org,title:Some text" ++ String "010" ""]
  ∧ files (snd r) !! "out.gz"
    = Some ("source_domain:other.org,title:Some text" ++ String "010" "").
Proof.
  intros valid_hosts r record a.
  split; [reflexivity|]. split; [intros [H|[]]; discriminate|].
  repeat split; vm_compute; reflexivity.
Qed.

(** C4 (the code at the failing input).  With [strict_date = True] and an
    article for which no publish date can be determined, the run writes the
    article to the sink: the flag is stored and never consulted, and
    [get_publishing_date] is not called. *)
Theorem strict_date_is_not_applied :
  let strict_date := true in
  let r := extract_from_commoncrawl Scenario.demo fresh_instance
             "https://host/one.warc.gz"
             (Example.on_valid_article_extracted Scenario.demo "out.gz")
             None None None strict_date true None true false INFO true None
             Scenario.empty_world in
  let record := materialized (Scenario.entry "other.org" "Some text") in
  let a := [("source_domain", VStr "other.org"); ("title", VStr "Some text")] in
  from_warc Scenario.demo record = inr (Some a)
  ∧ get_publishing_date Scenario.demo
      (assign fresh_instance "https://host/one.warc.gz"
         (Example.on_valid_article_extracted Scenario.demo "out.gz")
         None None None strict_date true None true false INFO true None)
      record a Scenario.empty_world
    = (Return None, Scenario.empty_world)
  ∧ fst r = SysExit
  ∧ sink_lines (trace (snd r)) = ["source_domain:other.org,title:Some text" ++ String "010" ""].
Proof.
  intros strict_date r record a.
  split; [reflexivity|]. split; [reflexivity|].
  split; vm_compute; reflexivity.
Qed.

(** * Further properties of the two files *)

(** *** The local name of a URL *)

(** One character of [quote_plus]. *)
Lemma quote_plus_cons c rest :
  Py.quote_plus (String c rest)
  = (if Py.always_safe c then String c EmptyString
     else if Py.ascii_eqb c " "%char then "+"
     else Py.percent_encode c) ++ Py.quote_plus rest.
Proof. reflexivity. Qed.

Lemma unquote_quote_char c t :
  unquote_plus ((if Py.always_safe c then String c EmptyString
                 else if Py.ascii_eqb c " "%char then "+"
                 else Py.percent_encode c) ++ t)
  = String c (unquote_plus t).
Proof. destruct c as [[] [] [] [] [] [] [] []]; reflexivity. Qed.

Lemma unquote_quote_plus s : unquote_plus (Py.quote_plus s) = s.
Proof.
  induction s as [|c s IH]; [reflexivity|].
  rewrite quote_plus_cons, unquote_quote_char. by rewrite IH.
Qed.

Lemma quote_char_no_sep c t :
  contains_char "/" ((if Py.always_safe c then String c EmptyString
                      else if Py.ascii_eqb c " "%char then "+"
                      else Py.percent_encode c) ++ t)
  = contains_char "/" t.
Proof. destruct c as [[] [] [] [] [] [] [] []]; reflexivity. Qed.

Lemma quote_plus_no_sep s : contains_char "/" (Py.quote_plus s) = false.
Proof.
  induction s as [|c s IH]; [reflexivity|].
  by rewrite quote_plus_cons, quote_char_no_sep.
Qed.

Lemma no_sep_startswith s : contains_char "/" s = false → Py.startswith_sep s = false.
Proof. destruct s as [|c s]; [done|]. simpl. by intros [? ?]%orb_false_elim. Qed.

Lemma string_app_inv_head (d a b : string) : d ++ a = d ++ b → a = b.
Proof.
  induction d as [|c d IH]; [done|].
  change (String c (d ++ a) = String c (d ++ b) → a = b). intros [= H]. by apply IH.
Qed.

Lemma string_app_assoc (a b c : string) : (a ++ b) ++ c = a ++ b ++ c.
Proof.
  induction a as [|x a IH]; [done|].
  change (String x ((a ++ b) ++ c) = String x (a ++ b ++ c)). by rewrite IH.
Qed.

Lemma os_path_join_name d name :
  contains_char "/" name = false → Py.os_path_join d name = dir_prefix d ++ name.
Proof.
  intros H. unfold Py.os_path_join, dir_prefix. rewrite (no_sep_startswith _ H).
  destruct (String.eqb d "" || Py.endswith_sep d)%bool; [done|].
  by rewrite string_app_assoc.
Qed.

(** X1.  For a fixed download directory the local path determines the URL:
    two URLs with the same local path are the same URL, so a cached file is
    never taken for that of another URL. *)
Theorem local_filepath_injective (self : config) (url1 url2 : string) :
  local_filepath self url1 = local_filepath self url2 → url1 = url2.
Proof.
  unfold local_filepath.
  rewrite !os_path_join_name by apply quote_plus_no_sep.
  intros H%string_app_inv_head.
  rewrite <- (unquote_quote_plus url1), <- (unquote_quote_plus url2). by rewrite H.
Qed.

Lemma local_filepath_injective_witness :
  let self := fresh_instance in
  local_filepath self "https://host/a b.warc.gz" = local_filepath self "https://host/a b.warc.gz"
  ∧ "https://host/a b.warc.gz" = "https://host/a b.warc.gz".
Proof.
  intros self. split; [reflexivity|].
  apply (local_filepath_injective self). reflexivity.
Defined.


(** *** Downloading *)

Lemma network_requests_snoc t e :
  network_requests (t ++ [e])
  = (network_requests t ++ match e with EvUrlRetrieve u _ => [u] | _ => [] end)%list.
Proof. rewrite network_requests_app. by destruct e. Qed.

Ltac requests := rewrite ?network_requests_snoc; cbn iota; rewrite ?app_nil_r.

(** X3.  When the file is not reused (it is absent, or reuse is disabled)
    and the transfer succeeds, [download] makes exactly one network request,
    for the given URL, returns the local path, and leaves the fetched bytes
    at that path; every other file is as before. *)
Theorem download_fetches_once (E : env) (self : config) (url : string) (w : world)
    (content : string) :
  bool_decide (is_Some (files w !! local_filepath self url))
  && reuse_previously_downloaded_files self = false →
  urlopen E url = inr content →
  ∃ w',
    download E self url w = (Return (local_filepath self url), w')
    ∧ files w' = <[local_filepath self url := content]> (files w)
    ∧ network_requests (trace w') = (network_requests (trace w) ++ [url])%list.
Proof.
  intros Hnc Hnet. rewrite (download_not_cached E self url w Hnc), Hnet.
  eexists. split; [reflexivity|].
  destruct (files w !! local_filepath self url) eqn:Hfile;
    cbn [files trace log_event set_files].
  - split; [apply insert_delete_eq|]. by requests.
  - split; [done|]. by requests.
Qed.

Lemma download_fetches_once_witness :
  let self := fresh_instance in
  let url := "https://host/one.warc.gz" in
  ∃ w',
    download Scenario.demo self url Scenario.empty_world
    = (Return (local_filepath self url), w')
    ∧ files w' = <[local_filepath self url := "one"]> (files Scenario.empty_world)
    ∧ network_requests (trace w')
      = (network_requests (trace Scenario.empty_world) ++ [url])%list.
Proof.
  intros self url.
  apply (download_fetches_once Scenario.demo self url Scenario.empty_world "one");
    reflexivity.
Defined.

(** X4.  When the file is not reused and the transfer fails, [download]
    raises the error of the transfer after one network request.  The file
    that was at the local path is gone: the path holds what the broken
    transfer wrote, or nothing.  A later download of the same URL with reuse
    enabled returns such an incomplete file without any request. *)
Theorem failed_download_replaces_cached_file (E : env) (self : config) (url : string)
    (w : world) (e : py_exception) (partial : option string) :
  bool_decide (is_Some (files w !! local_filepath self url))
  && reuse_previously_downloaded_files self = false →
  urlopen E url = inl (e, partial) →
  ∃ w',
    download E self url w = (Raise e, w')
    ∧ files w' !! local_filepath self url = partial
    ∧ network_requests (trace w') = (network_requests (trace w) ++ [url])%list
    ∧ ∀ self2,
        local_download_dir_warc self2 = local_download_dir_warc self →
        reuse_previously_downloaded_files self2 = true →
        is_Some partial →
        ∃ w2, download E self2 url w' = (Return (local_filepath self url), w2)
              ∧ files w2 !! local_filepath self url = partial
              ∧ network_requests (trace w2) = network_requests (trace w').
Proof.
  intros Hnc Hnet. rewrite (download_not_cached E self url w Hnc), Hnet.
  assert (Hreq : ∀ w0 : world,
            network_requests (trace (log_event (EvUrlRetrieve url (local_filepath self url))
              (log_event (EvLog INFO ("downloading " ++ url ++ " (local: "
                                      ++ local_filepath self url ++ ")")) w0)))
            = (network_requests (trace w0) ++ [url])%list).
  { intros w0. cbn [trace log_event]. by requests. }
  assert (Hrm : network_requests
                  (trace (log_event (EvRemove (local_filepath self url))
                            (set_files (delete (local_filepath self url)) w)))
                = network_requests (trace w)).
  { cbn [trace log_event set_files]. by requests. }
  assert (Hlater : ∀ w' : world, files w' !! local_filepath self url = partial →
            ∀ self2,
              local_download_dir_warc self2 = local_download_dir_warc self →
              reuse_previously_downloaded_files self2 = true →
              is_Some partial →
              ∃ w2, download E self2 url w' = (Return (local_filepath self url), w2)
                    ∧ files w2 !! local_filepath self url = partial
                    ∧ network_requests (trace w2) = network_requests (trace w')).
  { intros w' Hf self2 Hdir Hreuse Hsome.
    assert (Hp : local_filepath self2 url = local_filepath self url)
      by (unfold local_filepath; by rewrite Hdir).
    eexists. split.
    - rewrite <- Hp. apply download_cached; [done|]. by rewrite Hp, Hf.
    - cbn [files trace log_event]. split; [done|]. by requests. }
  destruct partial as [c|]; eexists; (split; [reflexivity|]).
  - assert (Hf : files (set_files (<[local_filepath self url := c]>)
                   (log_event (EvUrlRetrieve url (local_filepath self url))
                      (log_event (EvLog INFO ("downloading " ++ url ++ " (local: "
                                              ++ local_filepath self url ++ ")"))
                         match files w !! local_filepath self url with
                         | Some _ => log_event (EvRemove (local_filepath self url))
                                       (set_files (delete (local_filepath self url)) w)
                         | None => w
                         end))) !! local_filepath self url = Some c).
    { cbn [files set_files log_event]. apply lookup_insert_eq. }
    split; [exact Hf|]. split; [|by apply Hlater].
    cbn [trace set_files]. rewrite Hreq.
    destruct (files w !! local_filepath self url); [by rewrite Hrm|done].
  - split.
    { cbn [files log_event].
      destruct (files w !! local_filepath self url) eqn:Hfile;
        [cbn [files log_event set_files]; apply lookup_delete_eq | done]. }
    split; [|by intros ? ? ? [? ?]].
    rewrite Hreq. destruct (files w !! local_filepath self url); [by rewrite Hrm|done].
Qed.

Lemma failed_download_replaces_cached_file_witness :
  let self := fresh_instance in
  let url := "https://host/cut.warc.gz" in
  let e := PyExc (OtherException "ContentTooShortError") "retrieval incomplete" in
  ∃ w',
    download Scenario.demo self url Scenario.empty_world = (Raise e, w')
    ∧ files w' !! local_filepath self url = Some "t".
Proof.
  intros self url e.
  destruct (failed_download_replaces_cached_file Scenario.demo self url
              Scenario.empty_world e (Some "t") eq_refl eq_refl)
    as (w' & Hrun & Hfile & _).
  exists w'. by split.
Defined.

(** *** Setting up and running *)


(** A regular file under the name of the download directory: [setup] creates
    nothing. *)
Lemma setup_with_file_in_the_way :
  let w := Scenario.world_with "./cc_download_warc/" "not a directory" in
  let w0 := set_dirs (λ _, ∅) w in
  setup fresh_instance w0 = (Return tt, w0)
  ∧ "./cc_download_warc/" ∉ dirs w0.
Proof. intros w w0. split; [reflexivity|]. cbn. set_solver. Qed.

(** A failed transfer: the download raises, and its trace holds neither a
    sink line nor a call of the extractor. *)
Lemma failed_download_trace E self url w e partial :
  bool_decide (is_Some (files w !! local_filepath self url))
  && reuse_previously_downloaded_files self = false →
  urlopen E url = inl (e, partial) →
  ∃ w', download E self url w = (Raise e, w')
        ∧ sink_lines (trace w') = sink_lines (trace w)
        ∧ extraction_calls (trace w') = extraction_calls (trace w).
Proof.
  intros Hnc Hnet.
  destruct (download_trace E self url w) as (o & w' & es & Hdl & Ht & _ & _ & Hs & Hx).
  rewrite (download_not_cached E self url w Hnc), Hnet in Hdl.
  exists w'. split.
  - rewrite (download_not_cached E self url w Hnc), Hnet.
    destruct partial; by injection Hdl as <- <-.
  - rewrite Ht, !sink_lines_app, !extraction_calls_app, Hs, Hx.
    destruct (bool_decide _ && negb _); simpl; by rewrite ?app_nil_r.
Qed.

(** X6.  When the file is not reused and the transfer fails, the run raises
    the error of the transfer instead of exiting: the callback is not called,
    whatever it is, so no record is extracted and nothing is written to the
    sink. *)
Theorem failed_download_aborts_run (E : env) (self : config) (url : string)
    (callback : list warc_record → M unit)
    (valid_hosts : option (list string)) (start_date end_date : option datetime)
    (strict_date reuse : bool) (download_dir : option string)
    (continue_after_error show_progress : bool) (level : logging_level)
    (delete_after : bool) (log_pathname : option string) (w : world)
    (e : py_exception) (partial : option string) :
  let self' := assign self url callback valid_hosts start_date end_date strict_date
                 reuse download_dir continue_after_error show_progress level
                 delete_after log_pathname in
  bool_decide (is_Some (files w !! local_filepath self' url)) && reuse = false →
  urlopen E url = inl (e, partial) →
  ∃ w',
    (∀ callback',
       extract_from_commoncrawl E self url callback' valid_hosts start_date end_date
         strict_date reuse download_dir continue_after_error show_progress level
         delete_after log_pathname w = (Raise e, w'))
    ∧ sink_lines (trace w') = sink_lines (trace w)
    ∧ extraction_calls (trace w') = extraction_calls (trace w).
Proof.
  intros self' Hnc Hnet.
  destruct (setup_spec self' w) as (es0 & w0 & Hsetup & Hf0 & Ht0 & Hes0).
  assert (Hnc0 : bool_decide (is_Some (files w0 !! local_filepath self' url))
                 && reuse_previously_downloaded_files self' = false)
    by (by rewrite Hf0).
  destruct (failed_download_trace E self' url w0 e partial Hnc0 Hnet)
    as (w' & Hdl & Hs & Hx).
  exists w'. split; [|split].
  - intros callback'. unfold extract_from_commoncrawl, run.
    unfold bind at 1.
    change (setup (assign self url callback' valid_hosts start_date end_date strict_date
                     reuse download_dir continue_after_error show_progress level
                     delete_after log_pathname) w) with (setup self' w).
    rewrite Hsetup. unfold bind at 1.
    change (download E (assign self url callback' valid_hosts start_date end_date
                          strict_date reuse download_dir continue_after_error
                          show_progress level delete_after log_pathname)
              (warc_download_url (assign self url callback' valid_hosts start_date
                 end_date strict_date reuse download_dir continue_after_error
                 show_progress level delete_after log_pathname)) w0)
      with (download E self' url w0).
    by rewrite Hdl.
  - rewrite Hs, Ht0, sink_lines_app. destruct Hes0 as [-> | ->]; simpl; by rewrite app_nil_r.
  - rewrite Hx, Ht0, extraction_calls_app.
    destruct Hes0 as [-> | ->]; simpl; by rewrite app_nil_r.
Qed.

Lemma failed_download_aborts_run_witness :
  let e := PyExc URLError "not found" in
  ∃ w',
    extract_from_commoncrawl Scenario.demo fresh_instance "https://host/missing.warc.gz"
      (Example.on_valid_article_extracted Scenario.demo "out.gz")
      None None None true true None true false INFO true None Scenario.empty_world
    = (Raise e, w')
    ∧ sink_lines (trace w') = [].
Proof.
  intros e.
  destruct (failed_download_aborts_run Scenario.demo fresh_instance
              "https://host/missing.warc.gz"
              (Example.on_valid_article_extracted Scenario.demo "out.gz")
              None None None true true None true false INFO true None
              Scenario.empty_world e None eq_refl eq_refl)
    as (w' & Hrun & Hsink & _).
  exists w'. split; [apply Hrun | exact Hsink].
Defined.

(** *** The callback of the example, in full *)

Lemma info_logs_app t1 t2 : info_logs (t1 ++ t2) = (info_logs t1 + info_logs t2)%nat.
Proof. unfold info_logs. by rewrite List.filter_app, length_app. Qed.

Lemma hundredth_step (i : nat) :
  ((i + 100) / 100 = (i + 99) / 100 + (if (i mod 100 =? 0)%nat then 1 else 0))%nat.
Proof.
  pose proof (Nat.div_mod_eq i 100) as Hi.
  pose proof (Nat.mod_upper_bound i 100 ltac:(lia)) as Hr.
  destruct (Nat.eqb_spec (i mod 100) 0) as [H0|H0].
  - rewrite H0 in Hi.
    rewrite <- (Nat.div_unique (i + 100) 100 (i / 100 + 1) 0) by lia.
    rewrite <- (Nat.div_unique (i + 99) 100 (i / 100) 99) by lia. lia.
  - rewrite <- (Nat.div_unique (i + 100) 100 (i / 100 + 1) (i mod 100)) by lia.
    rewrite <- (Nat.div_unique (i + 99) 100 (i / 100 + 1) (i mod 100 - 1)) by lia. lia.
Qed.

Lemma string_app_nil_r (s : string) : s ++ "" = s.
Proof.
  induction s as [|c s IH]; [done|].
  change (String c (s ++ "") = String c s). by rewrite IH.
Qed.

Lemma string_concat_cons (x : string) (l : list string) :
  String.concat "" (x :: l) = x ++ String.concat "" l.
Proof. destruct l; [by rewrite string_app_nil_r | reflexivity]. Qed.

Lemma sink_lines_cons e es :
  sink_lines (e :: es)
  = match e with EvSinkWrite _ l => l :: sink_lines es | _ => sink_lines es end.
Proof. by destruct e. Qed.

Lemma info_logs_cons e es :
  info_logs (e :: es)
  = match e with EvLog INFO _ => S (info_logs es) | _ => info_logs es end.
Proof. destruct e as [[] ?| | | | | | | | |]; reflexivity. Qed.

(** The loop that writes the sink, with the file and the progress lines. *)
Lemma write_articles_full E out results : ∀ i n w c,
  files w !! out = Some c →
  ∃ es w',
    Example.write_articles E out i n results w = (Return tt, w')
    ∧ trace w' = (trace w ++ es)%list
    ∧ sink_lines es = List.map sink_line (omap id results)
    ∧ files w' !! out = Some (c ++ String.concat "" (sink_lines es))
    ∧ info_logs es = ((i + length results + 99) / 100 - (i + 99) / 100)%nat
    ∧ (∀ p, p ≠ out → files w' !! p = files w !! p).
Proof.
  induction results as [|a results IH]; intros i n w c Hc.
  - exists [], w. rewrite app_nil_r. split; [done|]. split; [done|]. split; [done|].
    split; [cbn; by rewrite Hc, string_app_nil_r|].
    split; [|done]. cbn. rewrite Nat.add_0_r. lia.
  - cbn [Example.write_articles].
    pose proof (hundredth_step i) as Hstep.
    assert (Hmono : ((i + 100) / 100 <= (i + length results + 100) / 100)%nat)
      by (apply Nat.Div0.div_le_mono; lia).
    replace (i + length (a :: results) + 99)%nat with (i + length results + 100)%nat
      by (cbn; lia).
    destruct a as [a|]; destruct (i mod 100 =? 0)%nat;
      unfold Example.print_to; unfold_py;
      match goal with |- context [Example.write_articles E out (S i) n results ?w1] =>
        let Hc1 := fresh "Hc1" in
        eassert (Hc1 : files w1 !! out = Some _)
          by (cbn [files log_event set_files]; rewrite ?lookup_insert_eq, ?Hc;
              first [reflexivity | exact Hc]);
        destruct (IH (S i) n w1 _ Hc1) as (es & w' & Hrun & Htr & Hsink & Hfile & Hlogs & Hf);
        rewrite Hrun
      end; cbn [trace log_event set_files files default] in Htr, Hfile;
      replace (S i + length results + 99)%nat with (i + length results + 100)%nat in Hlogs by lia;
      replace (S i + 99)%nat with (i + 100)%nat in Hlogs by lia.
    + eexists (_ :: _ :: es), w'. split; [done|].
      rewrite Htr, <- !app_assoc. split; [done|].
      rewrite ?sink_lines_cons, ?info_logs_cons; cbn iota.
      split; [by rewrite Hsink|].
      split; [by rewrite Hfile, string_concat_cons, string_app_assoc|].
      split; [lia|].
      intros p Hp. rewrite Hf by done. cbn [files log_event set_files].
      by rewrite lookup_insert_ne.
    + eexists (_ :: es), w'. split; [done|].
      rewrite Htr, <- !app_assoc. split; [done|].
      rewrite ?sink_lines_cons, ?info_logs_cons; cbn iota.
      split; [by rewrite Hsink|].
      split; [by rewrite Hfile, string_concat_cons, string_app_assoc|].
      split; [lia|].
      intros p Hp. rewrite Hf by done. cbn [files log_event set_files].
      by rewrite lookup_insert_ne.
    + eexists (_ :: es), w'. split; [done|].
      rewrite Htr, <- !app_assoc. split; [done|].
      rewrite ?sink_lines_cons, ?info_logs_cons; cbn iota.
      split; [done|]. split; [exact Hfile|]. split; [lia|].
      intros p Hp. by rewrite Hf.
    + exists es, w'. split; [done|]. split; [done|]. split; [done|].
      split; [exact Hfile|]. split; [lia|done].
Qed.


Lemma string_app_inv_nil (s t : string) : s ++ t = s → t = "".
Proof.
  induction s as [|c s IH]; [done|].
  change (String c (s ++ t) = String c s → t = ""). intros [= H]. by apply IH.
Qed.

Lemma marker_is_not_sink (out : string) : out ≠ out ++ ".done".
Proof. intros H. symmetry in H. by apply string_app_inv_nil in H. Qed.

(** Everything the callback does: the events of the workers, then the sink
    file rewritten line by line with a progress line at every hundredth
    result, then the marker. *)
Lemma callback_full E out batch w :
  ∃ es w',
    Example.on_valid_article_extracted E out batch w = (Return tt, w')
    ∧ trace w' = (trace w ++ List.concat (List.map (worker_events E) batch) ++ es)%list
    ∧ sink_lines es
      = List.map sink_line
          (omap id (reorder (pool_order E) _ (List.map (article_of E) batch)))
    ∧ files w' !! out = Some (String.concat "" (sink_lines es))
    ∧ files w' !! (out ++ ".done")
      = Some (("done in " ++ elapsed E ++ " seconds") ++ String "010" "")
    ∧ info_logs es = ((length batch + 99) / 100)%nat
    ∧ (∀ p, p ≠ out → p ≠ out ++ ".done" → files w' !! p = files w !! p).
Proof.
  unfold Example.on_valid_article_extracted, Example.imap_unordered,
    Example.gzip_open_wt.
  unfold bind at 1. unfold bind at 1. rewrite pool_map_spec. unfold ret at 1.
  unfold bind at 1. unfold modify at 1.
  unfold bind at 1.
  match goal with |- context [Example.write_articles E out 0 ?n ?rs ?w1] =>
    destruct (write_articles_full E out rs 0 n w1 "") as
      (es & w' & Hrun & Htr & Hsink & Hfile & Hlogs & Hf);
      [cbn [files set_files log_events]; apply lookup_insert_eq|];
    rewrite Hrun
  end.
  unfold_py. cbn [trace set_files log_events files] in Htr.
  rewrite (Permutation_length (reorder_perm (pool_order E) _ _)), length_map in Hlogs.
  eexists (es ++ [_; _])%list, _. split; [reflexivity|].
  cbn [trace files log_event set_files]. rewrite Htr, <- !app_assoc.
  split; [reflexivity|].
  rewrite sink_lines_app, info_logs_app, Hsink. cbn [sink_lines omap list_omap info_logs].
  split; [by rewrite app_nil_r|].
  split. { rewrite lookup_insert_ne by (symmetry; apply marker_is_not_sink).
           rewrite Hfile. cbn. by rewrite app_nil_r, Hsink. }
  split; [apply lookup_insert_eq|].
  split. { cbn. rewrite Hlogs. cbn. lia. }
  intros p Hp1 Hp2. rewrite lookup_insert_ne by done. rewrite Hf by done.
  cbn [files set_files log_events]. by rewrite lookup_insert_ne.
Qed.


Lemma info_logs_workers E batch :
  info_logs (List.concat (List.map (worker_events E) batch)) = 0%nat.
Proof.
  induction batch as [|r batch IH]; [done|].
  cbn [List.map List.concat]. rewrite info_logs_app, IH.
  unfold worker_events, skip_warning. destruct (is_response r); [|done].
  destruct (from_warc E r) as [e|[a|]]; try done.
  by destruct (json_dumps E a).
Qed.

(** X7.  The worker never raises and never exits, and changes no file.  It
    calls the extractor once on a response record and not at all on another
    record.  It returns a line exactly when the extractor gives an article
    and the article is serialised; an error of the serialiser, like one of
    the extractor, is answered by one warning and [None]. *)
Theorem worker_never_raises (E : env) (r : warc_record) (w : world) :
  ∃ v es w',
    Example.process_warc_record E r w = (Return v, w')
    ∧ files w' = files w
    ∧ trace w' = (trace w ++ es)%list
    ∧ extraction_calls es = (if is_response r then [r] else [])
    ∧ (is_Some v ↔ yields_article E r = true)
    ∧ (∀ a e, is_response r = true → from_warc E r = inr (Some a) →
              json_dumps E a = inl e → v = None ∧ es = [EvFromWarc r; skip_warning e])
    ∧ (is_response r = true → from_warc E r = inr None → v = None ∧ es = [EvFromWarc r]).
Proof.
  exists (article_of E r), (worker_events E r), (log_events (worker_events E r) w).
  split; [apply process_warc_record_spec|]. split; [done|]. split; [done|].
  split.
  { unfold worker_events, skip_warning. destruct (is_response r); [|done].
    destruct (from_warc E r) as [e|[a|]]; try done. by destruct (json_dumps E a). }
  split.
  { rewrite yields_article_of. symmetry. apply bool_decide_eq_true. }
  split.
  - intros a e Hr Hfw Hjs. unfold article_of, worker_events. by rewrite Hr, Hfw, Hjs.
  - intros Hr Hfw. unfold article_of, worker_events. by rewrite Hr, Hfw.
Qed.

(** X8.  In one call of the callback every response record of the batch is
    handed to the extractor exactly once, and no other record is. *)
Theorem extractor_called_once_per_response (E : env) (outfile : string)
    (batch : list warc_record) (w : world) :
  ∃ es w',
    Example.on_valid_article_extracted E outfile batch w = (Return tt, w')
    ∧ trace w' = (trace w ++ es)%list
    ∧ Permutation (extraction_calls es) (List.filter is_response batch).
Proof.
  destruct (callback_trace E outfile batch w) as (es & w' & Hrun & Htr & _ & Hcalls).
  exists es, w'. by rewrite Hcalls.
Qed.

(** X9.  The callback rewrites the sink: whatever the output file held
    before, it holds afterwards exactly the lines written in this call, in
    the order they were written, and the marker file holds the elapsed
    time.  No other file is touched, and nothing is deleted, appended to a
    checkpoint log or requested from the network. *)
Theorem sink_file_is_rewritten (E : env) (outfile : string)
    (batch : list warc_record) (w : world) :
  ∃ es w',
    Example.on_valid_article_extracted E outfile batch w = (Return tt, w')
    ∧ trace w' = (trace w ++ es)%list
    ∧ files w' !! outfile = Some (String.concat "" (sink_lines es))
    ∧ files w' !! (outfile ++ ".done")
      = Some (("done in " ++ elapsed E ++ " seconds") ++ String "010" "")
    ∧ (∀ p, p ≠ outfile → p ≠ outfile ++ ".done" → files w' !! p = files w !! p)
    ∧ removals es = [] ∧ checkpoint_appends es = [] ∧ network_requests es = [].
Proof.
  destruct (callback_full E outfile batch w)
    as (es & w' & Hrun & Htr & Hsink & Hfile & Hmark & _ & Hframe).
  destruct (on_valid_article_extracted_spec E outfile batch w)
    as (es2 & w2 & Hrun2 & Htr2 & _ & Hq2 & _ & _).
  rewrite Hrun in Hrun2. injection Hrun2 as <-. rewrite Htr in Htr2.
  apply app_inv_head, app_inv_head in Htr2. subst es2.
  destruct (worker_events_quiet E batch) as [Hqw Hws].
  eexists _, w'. split; [exact Hrun|]. split; [exact Htr|].
  rewrite sink_lines_app, Hws. split; [exact Hfile|]. split; [exact Hmark|].
  split; [exact Hframe|].
  apply quiet_events_facts. by rewrite forallb_app, Hqw, Hq2.
Qed.

(** X10.  The callback logs one progress line for the first result and one
    for every hundredth after it: for a batch of [n] records there are
    [ceil(n / 100)] lines of level [INFO], whatever the records yield. *)
Theorem progress_line_every_hundred (E : env) (outfile : string)
    (batch : list warc_record) (w : world) :
  ∃ es w',
    Example.on_valid_article_extracted E outfile batch w = (Return tt, w')
    ∧ trace w' = (trace w ++ es)%list
    ∧ info_logs es = ((length batch + 99) / 100)%nat.
Proof.
  destruct (callback_full E outfile batch w)
    as (es & w' & Hrun & Htr & _ & _ & _ & Hlogs & _).
  eexists _, w'. split; [exact Hrun|]. split; [exact Htr|].
  by rewrite info_logs_app, info_logs_workers, Hlogs.
Qed.


(** *** From the URL to the sink *)

(** The callback, for the whole of its trace. *)
Lemma callback_summary E out batch w :
  ∃ es w',
    Example.on_valid_article_extracted E out batch w = (Return tt, w')
    ∧ trace w' = (trace w ++ es)%list
    ∧ Permutation (sink_lines es) (List.map sink_line (omap (article_of E) batch))
    ∧ extraction_calls es = List.filter is_response batch
    ∧ files w' !! out = Some (String.concat "" (sink_lines es)).
Proof.
  destruct (callback_full E out batch w)
    as (es & w' & Hrun & Htr & Hsink & Hfile & _ & _ & _).
  destruct (callback_trace E out batch w) as (es2 & w2 & Hrun2 & Htr2 & Hperm & Hcalls).
  rewrite Hrun in Hrun2. injection Hrun2 as <-. rewrite Htr in Htr2.
  apply app_inv_head in Htr2. subst es2.
  destruct (worker_events_quiet E batch) as [_ Hws].
  eexists _, w'. split; [exact Hrun|]. split; [exact Htr|].
  split; [exact Hperm|]. split; [exact Hcalls|].
  by rewrite sink_lines_app, Hws.
Qed.

(** X11.  From the URL to the sink: when the download step returns a file
    and the file parses, the run ends in [SystemExit] after it has handed
    every response record of the file to the extractor once and has left in
    the output file exactly the articles these records yield, one per line,
    in the completion order of the pool.  No host or date is looked at. *)
Theorem run_writes_every_article (E : env) (self : config) (url outfile : string)
    (valid_hosts : option (list string)) (start_date end_date : option datetime)
    (strict_date reuse : bool) (download_dir : option string)
    (continue_after_error show_progress : bool) (level : logging_level)
    (delete_after : bool) (log_pathname : option string)
    (w : world) (p : string) (w2 : world) (bytes : string) :
  let callback := Example.on_valid_article_extracted E outfile in
  let self' := assign self url callback valid_hosts start_date end_date strict_date
                 reuse download_dir continue_after_error show_progress level
                 delete_after log_pathname in
  let records := List.map materialized (entries_of (archive_iterator E bytes)) in
  download E self' url (snd (setup self' w)) = (Return p, w2) →
  files w2 !! p = Some bytes →
  parse_error (archive_iterator E bytes) = None →
  ∃ es w',
    extract_from_commoncrawl E self url callback valid_hosts start_date end_date
      strict_date reuse download_dir continue_after_error show_progress level
      delete_after log_pathname w = (SysExit, w')
    ∧ trace w' = (trace w2 ++ es)%list
    ∧ Permutation (sink_lines es) (List.map sink_line (omap (article_of E) records))
    ∧ Permutation (extraction_calls es) (List.filter is_response records)
    ∧ files w' !! outfile = Some (String.concat "" (sink_lines es)).
Proof.
  intros callback self' records Hdl Hbytes Hparse.
  destruct (setup_spec self' w) as (es0 & w0 & Hsetup & _ & _ & _).
  rewrite Hsetup in Hdl. cbn [snd] in Hdl.
  destruct (process_warc_gz_file_spec E self' p w2 bytes Hbytes) as (w3 & _ & _ & Hres).
  rewrite Hparse in Hres. destruct Hres as [Ht3 Hproc].
  change (callback_on_article_extracted self')
    with (Example.on_valid_article_extracted E outfile) in Hproc.
  fold records in Hproc.
  destruct (callback_summary E outfile records w3)
    as (es & w' & Hrun & Htr & Hperm & Hcalls & Hfile).
  exists ([EvLog INFO ("Extracting " ++ pretty (length (entries_of (archive_iterator E bytes)))
                        ++ " records")] ++ es)%list, w'.
  split.
  { unfold extract_from_commoncrawl, run. fold callback. fold self'.
    unfold bind at 1. rewrite Hsetup. unfold bind at 1.
    change (warc_download_url self') with url. rewrite Hdl.
    unfold bind at 1. by rewrite Hproc, Hrun. }
  split; [by rewrite Htr, Ht3, <- app_assoc|].
  rewrite sink_lines_app, extraction_calls_app. cbn [sink_lines extraction_calls omap list_omap].
  split; [exact Hperm|]. split; [by rewrite Hcalls|exact Hfile].
Qed.

Lemma run_writes_every_article_witness :
  let E := Scenario.demo in
  let url := "https://host/ten.warc.gz" in
  ∃ es w',
    extract_from_commoncrawl E fresh_instance url
      (Example.on_valid_article_extracted E "out.gz")
      (Some ["example.com"]) None None true true None true false INFO true None
      Scenario.empty_world = (SysExit, w')
    ∧ length (sink_lines es) = 9
    ∧ files w' !! "out.gz" = Some (String.concat "" (sink_lines es)).
Proof.
  intros E url.
  edestruct (run_writes_every_article E fresh_instance url "out.gz"
               (Some ["example.com"]) None None true true None true false INFO true None
               Scenario.empty_world)
    as (es & w' & Hrun & _ & Hperm & _ & Hfile).
  - eval_lhs.
  - eval_lhs.
  - reflexivity.
  - exists es, w'. split; [exact Hrun|]. split; [|exact Hfile].
    rewrite (Permutation_length Hperm). reflexivity.
Defined.


(** *** Lines of text *)

Lemma splitlines_go_plain_char c t cur :
  plain_char c = true → Py.splitlines_go (String c t) cur = Py.splitlines_go t (c :: cur).
Proof.
  destruct c as [[] [] [] [] [] [] [] []]; intros H; try discriminate H;
    destruct t as [|d1 [|d2 t2]]; reflexivity.
Qed.

Lemma string_of_list_ascii_app_cons (cur : list ascii) (c : ascii) (l : list ascii) :
  (rev (c :: cur) ++ l = rev cur ++ c :: l)%list.
Proof. simpl. by rewrite <- app_assoc. Qed.

Lemma splitlines_go_plain_newline k : ∀ cur rest,
  plain k = true →
  Py.splitlines_go (k ++ String "010" rest) cur
  = string_of_list_ascii (rev cur ++ list_ascii_of_string k) :: Py.splitlines_go rest [].
Proof.
  induction k as [|c k IH]; intros cur rest Hk.
  - cbn [list_ascii_of_string]. rewrite app_nil_r. reflexivity.
  - cbn [plain] in Hk. apply andb_prop in Hk as [Hc Hk].
    change (String c k ++ String "010" rest) with (String c (k ++ String "010" rest)).
    rewrite splitlines_go_plain_char by done. rewrite IH by done.
    cbn [list_ascii_of_string]. by rewrite string_of_list_ascii_app_cons.
Qed.

Lemma splitlines_go_plain_end k : ∀ cur,
  plain k = true → (cur ≠ [] ∨ k ≠ "") →
  Py.splitlines_go k cur = [string_of_list_ascii (rev cur ++ list_ascii_of_string k)].
Proof.
  induction k as [|c k IH]; intros cur Hk Hne.
  - destruct cur as [|x cur]; [by destruct Hne|].
    cbn [list_ascii_of_string]. rewrite app_nil_r. reflexivity.
  - cbn [plain] in Hk. apply andb_prop in Hk as [Hc Hk].
    rewrite splitlines_go_plain_char by done. rewrite IH by (done || by left).
    cbn [list_ascii_of_string]. by rewrite string_of_list_ascii_app_cons.
Qed.

Lemma word_plain s : word s = true → plain s = true ∧ s ≠ "".
Proof.
  unfold word, Shell.nonempty. intros [Hn Hp]%andb_prop. split; [done|].
  intros ->. discriminate Hn.
Qed.

Lemma strip_trailing_newline_cons c s :
  s ≠ "" → Py.strip_trailing_newline (String c s) = String c (Py.strip_trailing_newline s).
Proof. destruct s; [done|reflexivity]. Qed.

Lemma strip_trailing_newline_line s :
  Py.strip_trailing_newline (s ++ String "010" "") = s.
Proof.
  induction s as [|c s IH]; [reflexivity|].
  change (String c s ++ String "010" "") with (String c (s ++ String "010" "")).
  rewrite strip_trailing_newline_cons by (by destruct s). by rewrite IH.
Qed.

Lemma lines_text_app l1 l2 : lines_text (l1 ++ l2) = lines_text l1 ++ lines_text l2.
Proof.
  induction l1 as [|x l1 IH]; [reflexivity|].
  cbn [lines_text app]. by rewrite IH, !string_app_assoc.
Qed.

(** The lines of a text made of words are these words. *)
Lemma splitlines_lines_text l : ∀ rest,
  forallb word l = true →
  Py.splitlines_go (lines_text l ++ rest) [] = (l ++ Py.splitlines_go rest [])%list.
Proof.
  induction l as [|x l IH]; intros rest Hl; [reflexivity|].
  cbn [forallb] in Hl. apply andb_prop in Hl as [Hx Hl].
  destruct (word_plain _ Hx) as [Hp _].
  cbn [lines_text]. rewrite !string_app_assoc.
  change (String "010" "" ++ ?s) with (String "010" s).
  rewrite splitlines_go_plain_newline by done. cbn [rev app].
  rewrite string_of_list_ascii_of_string. by rewrite IH.
Qed.

Lemma splitlines_words l :
  forallb word l = true → Py.splitlines (lines_text l) = l.
Proof.
  intros Hl. unfold Py.splitlines.
  rewrite <- (string_app_nil_r (lines_text l)), splitlines_lines_text by done.
  cbn. by rewrite app_nil_r.
Qed.

(** The same after the final newline has been removed, as
    [subprocess.getoutput] does. *)
Lemma splitlines_stripped_words l :
  forallb word l = true →
  Py.splitlines (Py.strip_trailing_newline (lines_text l)) = l.
Proof.
  intros Hl. destruct l as [|x l] using rev_ind; [reflexivity|]. clear IHl.
  rewrite forallb_app in Hl. apply andb_prop in Hl as [Hl Hx].
  cbn [forallb] in Hx. rewrite andb_true_r in Hx. destruct (word_plain _ Hx) as [Hp Hne].
  rewrite lines_text_app. cbn [lines_text]. rewrite string_app_nil_r.
  rewrite <- string_app_assoc, strip_trailing_newline_line.
  unfold Py.splitlines. rewrite splitlines_lines_text by done.
  rewrite splitlines_go_plain_end by (done || by right). cbn [rev app].
  by rewrite string_of_list_ascii_of_string.
Qed.


(** *** The checkpoint log *)

Lemma register_appends self p url w :
  log_pathname_fully_extracted_warcs self = Some p →
  register_fully_extracted_warc_file self url w
  = (Return tt,
     log_event (EvAppendLine p (url ++ String "010" ""))
       (set_files (<[p := default "" (files w !! p) ++ url ++ String "010" ""]>) w)).
Proof. intros Hp. unfold register_fully_extracted_warc_file. rewrite Hp. reflexivity. Qed.

(** X12.  The checkpoint log is append-only and can be read back: when the
    log holds the lines [old] and the URLs [urls] are registered one after
    the other, the lines of the log are [old] followed by [urls], in the
    order of registration.  Every registration appends one line, no other
    file changes and nothing is deleted. *)
Theorem checkpoint_log_round_trip (self : config) (p : string) (urls : list string) :
  ∀ (old : list string) (w : world),
  log_pathname_fully_extracted_warcs self = Some p →
  default "" (files w !! p) = lines_text old →
  forallb word old = true → forallb word urls = true →
  ∃ w',
    for_each (register_fully_extracted_warc_file self) urls w = (Return tt, w')
    ∧ Py.splitlines (default "" (files w' !! p)) = (old ++ urls)%list
    ∧ (∀ q, q ≠ p → files w' !! q = files w !! q)
    ∧ checkpoint_appends (trace w')
      = (checkpoint_appends (trace w)
         ++ List.map (λ u, (p, (u ++ String "010" "")%string)) urls)%list
    ∧ removals (trace w') = removals (trace w).
Proof.
  intros old w Hp. revert old w.
  induction urls as [|u urls IH]; intros old w Hold Hwo Hwu.
  - exists w. split; [reflexivity|]. rewrite Hold, !app_nil_r.
    split; [by apply splitlines_words|]. done.
  - cbn [forallb] in Hwu. apply andb_prop in Hwu as [Hu Hwu].
    cbn [for_each]. unfold bind at 1. rewrite (register_appends self p u w Hp).
    match goal with |- context [for_each _ urls ?w1] =>
      destruct (IH (old ++ [u])%list w1) as (w' & Hrun & Hlines & Hframe & Hcp & Hrm)
    end.
    { cbn [files log_event set_files]. rewrite lookup_insert_eq. cbn [default].
      rewrite Hold, lines_text_app. cbn [lines_text]. by rewrite string_app_nil_r. }
    { rewrite forallb_app, Hwo. cbn [forallb]. by rewrite Hu. }
    { done. }
    exists w'. split; [exact Hrun|]. rewrite <- app_assoc in Hlines.
    split; [exact Hlines|]. split.
    { intros q Hq. rewrite Hframe by done. cbn [files log_event set_files].
      by rewrite lookup_insert_ne. }
    split.
    + rewrite Hcp. cbn [trace log_event set_files]. rewrite checkpoint_appends_app.
      cbn [List.map]. by rewrite <- app_assoc.
    + rewrite Hrm. cbn [trace log_event set_files]. rewrite removals_app. cbn.
      by rewrite app_nil_r.
Qed.

Lemma checkpoint_log_round_trip_witness :
  let self := assign fresh_instance "" (λ _, ret tt) None None None true true None
                true false INFO true (Some "done.log") in
  let urls := ["https://host/a.warc.gz"; "https://host/b.warc.gz"] in
  ∃ w',
    for_each (register_fully_extracted_warc_file self) urls Scenario.empty_world
    = (Return tt, w')
    ∧ Py.splitlines (default "" (files w' !! "done.log")) = urls.
Proof.
  intros self urls.
  destruct (checkpoint_log_round_trip self "done.log" urls [] Scenario.empty_world
              eq_refl eq_refl eq_refl eq_refl)
    as (w' & Hrun & Hlines & _).
  exists w'. by split.
Defined.


(** *** The remote index *)

Lemma split_go_word is_sep tok : ∀ cur s rest,
  free_of is_sep tok = true → is_sep s = true →
  Shell.split_go is_sep (tok ++ String s rest) cur
  = string_of_list_ascii (rev cur ++ list_ascii_of_string tok)
    :: Shell.split_go is_sep rest [].
Proof.
  induction tok as [|c tok IH]; intros cur s rest Hfree Hs.
  - cbn [list_ascii_of_string]. rewrite app_nil_r.
    change ("" ++ String s rest) with (String s rest).
    cbn [Shell.split_go]. by rewrite Hs.
  - cbn [free_of] in Hfree. apply andb_prop in Hfree as [Hc%negb_true_iff Hfree].
    change (String c tok ++ String s rest) with (String c (tok ++ String s rest)).
    cbn [Shell.split_go]. rewrite Hc, IH by done.
    cbn [list_ascii_of_string]. by rewrite string_of_list_ascii_app_cons.
Qed.

Lemma split_go_end is_sep tok : ∀ cur,
  free_of is_sep tok = true →
  Shell.split_go is_sep tok cur
  = [string_of_list_ascii (rev cur ++ list_ascii_of_string tok)].
Proof.
  induction tok as [|c tok IH]; intros cur Hfree.
  - cbn [list_ascii_of_string]. by rewrite app_nil_r.
  - cbn [free_of] in Hfree. apply andb_prop in Hfree as [Hc%negb_true_iff Hfree].
    cbn [Shell.split_go]. rewrite Hc, IH by done.
    cbn [list_ascii_of_string]. by rewrite string_of_list_ascii_app_cons.
Qed.

Lemma free_of_app is_sep a b :
  free_of is_sep (a ++ b) = free_of is_sep a && free_of is_sep b.
Proof.
  induction a as [|c a IH]; [reflexivity|].
  change (String c a ++ b) with (String c (a ++ b)). cbn [free_of].
  by rewrite IH, andb_assoc.
Qed.

Lemma plain_char_not_sep c :
  plain_char c = true →
  (Py.ascii_eqb c " "%char || Py.ascii_eqb c "009"%char) = false
  ∧ Py.ascii_eqb "010"%char c = false.
Proof. destruct c as [[] [] [] [] [] [] [] []]; intros H; try discriminate H; done. Qed.

Lemma plain_free_of_blank s :
  plain s = true →
  free_of (λ c, Py.ascii_eqb c " "%char || Py.ascii_eqb c "009"%char) s = true.
Proof.
  induction s as [|c s IH]; [done|]. cbn [plain free_of].
  intros [Hc Hs]%andb_prop. destruct (plain_char_not_sep c Hc) as [-> _]. by rewrite IH.
Qed.

Lemma plain_free_of_newline s :
  plain s = true → free_of (Py.ascii_eqb "010"%char) s = true.
Proof.
  induction s as [|c s IH]; [done|]. cbn [plain free_of].
  intros [Hc Hs]%andb_prop. destruct (plain_char_not_sep c Hc) as [_ ->]. by rewrite IH.
Qed.

Lemma spaces_free_of_newline n : free_of (Py.ascii_eqb "010"%char) (spaces n) = true.
Proof. induction n as [|n IH]; [done|]. cbn [spaces free_of]. by rewrite IH. Qed.

Lemma fields_word tok s rest :
  word tok = true →
  (Py.ascii_eqb s " "%char || Py.ascii_eqb s "009"%char) = true →
  List.filter Shell.nonempty
    (Shell.split_go (λ c, Py.ascii_eqb c " "%char || Py.ascii_eqb c "009"%char)
       (tok ++ String s rest) [])
  = tok :: List.filter Shell.nonempty
             (Shell.split_go (λ c, Py.ascii_eqb c " "%char || Py.ascii_eqb c "009"%char)
                rest []).
Proof.
  intros Hw Hs. pose proof Hw as [Hne _]%andb_prop. destruct (word_plain _ Hw) as [Hp _].
  rewrite split_go_word by (by apply plain_free_of_blank || done).
  cbn [rev app List.filter]. by rewrite string_of_list_ascii_of_string, Hne.
Qed.

Lemma fields_spaces n rest :
  List.filter Shell.nonempty
    (Shell.split_go (λ c, Py.ascii_eqb c " "%char || Py.ascii_eqb c "009"%char)
       (spaces n ++ rest) [])
  = List.filter Shell.nonempty
      (Shell.split_go (λ c, Py.ascii_eqb c " "%char || Py.ascii_eqb c "009"%char)
         rest []).
Proof.
  induction n as [|n IH]; [reflexivity|].
  change (spaces (S n) ++ rest) with (String " " (spaces n ++ rest)).
  cbn [Shell.split_go]. cbn. exact IH.
Qed.

Lemma fields_last tok :
  word tok = true →
  List.filter Shell.nonempty
    (Shell.split_go (λ c, Py.ascii_eqb c " "%char || Py.ascii_eqb c "009"%char) tok [])
  = [tok].
Proof.
  intros Hw. pose proof Hw as [Hne _]%andb_prop. destruct (word_plain _ Hw) as [Hp _].
  rewrite split_go_end by (by apply plain_free_of_blank).
  cbn [rev app List.filter]. by rewrite string_of_list_ascii_of_string, Hne.
Qed.

(** The fields that [awk] sees in a row of the listing. *)
Lemma awk_fields_row r :
  row_ok r = true →
  Shell.awk_fields (row_text r) = [row_date r; row_time r; row_size r; row_key r].
Proof.
  unfold row_ok. intros [[[Hd Ht]%andb_prop Hs]%andb_prop Hk]%andb_prop.
  unfold Shell.awk_fields, row_text.
  change (" " ++ ?s) with (String " " s).
  rewrite (fields_word _ " "%char _ Hd eq_refl).
  change (spaces (S (row_pad r)) ++ ?s) with (String " " (spaces (row_pad r) ++ s)).
  rewrite (fields_word _ " "%char _ Ht eq_refl). rewrite fields_spaces.
  change (" " ++ row_key r) with (String " " (row_key r)).
  rewrite (fields_word _ " "%char _ Hs eq_refl). by rewrite fields_last.
Qed.

Lemma row_text_one_line r :
  row_ok r = true → free_of (Py.ascii_eqb "010"%char) (row_text r) = true.
Proof.
  unfold row_ok. intros [[[Hd Ht]%andb_prop Hs]%andb_prop Hk]%andb_prop.
  unfold row_text. rewrite !free_of_app, spaces_free_of_newline.
  rewrite (plain_free_of_newline _ (proj1 (word_plain _ Hd))).
  rewrite (plain_free_of_newline _ (proj1 (word_plain _ Ht))).
  rewrite (plain_free_of_newline _ (proj1 (word_plain _ Hs))).
  rewrite (plain_free_of_newline _ (proj1 (word_plain _ Hk))).
  reflexivity.
Qed.

Lemma split_lines_text l :
  forallb (free_of (Py.ascii_eqb "010"%char)) l = true →
  Shell.split_go (Py.ascii_eqb "010"%char) (lines_text l) [] = (l ++ [""])%list.
Proof.
  induction l as [|x l IH]; [reflexivity|]. cbn [forallb].
  intros [Hx Hl]%andb_prop. cbn [lines_text].
  change (String "010" "" ++ ?s) with (String "010" s).
  rewrite split_go_word by done. cbn [rev app].
  by rewrite string_of_list_ascii_of_string, IH.
Qed.

Lemma drop_last_empty_snoc l : Shell.drop_last_empty (l ++ [""]) = l.
Proof.
  induction l as [|x l IH]; [reflexivity|].
  destruct l as [|y l]; [reflexivity|].
  change (Shell.drop_last_empty ((x :: y :: l) ++ [""]))
    with (x :: Shell.drop_last_empty ((y :: l) ++ [""])).
  by rewrite IH.
Qed.

Lemma concat_lines {A} (g : A → string) (l : list A) :
  String.concat "" (List.map (λ x, g x ++ String "010" "") l) = lines_text (List.map g l).
Proof.
  induction l as [|x l IH]; [reflexivity|].
  cbn [List.map lines_text]. by rewrite string_concat_cons, IH, string_app_assoc.
Qed.

(** [awk] prints the keys of the listing, one per line. *)
Lemma awk_print4_listing rows :
  forallb row_ok rows = true →
  Shell.awk_print4 (lines_text (List.map row_text rows))
  = lines_text (List.map row_key rows).
Proof.
  intros Hrows. unfold Shell.awk_print4, Shell.awk_records.
  rewrite split_lines_text, drop_last_empty_snoc.
  - rewrite List.map_map. rewrite <- concat_lines.
    f_equal. apply List.map_ext_in. intros r Hr.
    rewrite awk_fields_row; [reflexivity|].
    rewrite forallb_forall in Hrows. by apply Hrows.
  - rewrite forallb_forall. intros t [r [<- Hr]]%in_map_iff.
    apply row_text_one_line. rewrite forallb_forall in Hrows. by apply Hrows.
Qed.


(** X13.  When [aws] succeeds and prints a listing whose rows are date,
    time, size and key (words separated by blanks), [get_remote_index]
    returns exactly the keys of the rows, in the order of the listing; the
    listing file is gone afterwards and no other file has changed. *)
Theorem remote_index_lists_keys (E : env) (self : config) (w : world)
    (rows : list listing_row) :
  aws_s3_ls E = {| p_stdout := lines_text (List.map row_text rows);
                   p_stderr := ""; p_ok := true |} →
  forallb row_ok rows = true →
  ∃ w',
    get_remote_index E self w = (Return (List.map row_key rows), w')
    ∧ files w' !! Shell.tmp_listing = None
    ∧ ∀ q, q ≠ Shell.tmp_listing → files w' !! q = files w !! q.
Proof.
  intros Haws Hrows.
  assert (Hkeys : forallb word (List.map row_key rows) = true).
  { rewrite forallb_forall. intros k [r [<- Hr]]%in_map_iff.
    rewrite forallb_forall in Hrows. specialize (Hrows r Hr).
    unfold row_ok in Hrows. by apply andb_prop in Hrows as [_ ?]. }
  unfold get_remote_index, subprocess_getoutput. unfold_py.
  cbn [Shell.sh files log_event]. rewrite Haws. cbn [p_ok p_stdout p_stderr].
  change ("" ++ ?s) with s. rewrite awk_print4_listing by done.
  rewrite splitlines_stripped_words by done.
  destruct (files w !! Shell.tmp_listing) eqn:Htmp; cbn;
    (eexists; split; [reflexivity|]); cbn;
    (split; [by rewrite lookup_delete_eq|]);
    intros q Hq; by rewrite !lookup_delete_ne, ?lookup_insert_ne, ?lookup_delete_ne.
Qed.

Lemma remote_index_lists_keys_witness :
  let rows := [ {| row_date := "2017-01-01"; row_time := "10:00:00"; row_pad := 0;
                   row_size := "100"; row_key := "crawl-data/CC-NEWS/2016/a.warc.gz" |};
                {| row_date := "2017-01-02"; row_time := "10:00:00"; row_pad := 0;
                   row_size := "200"; row_key := "crawl-data/CC-NEWS/2016/b.warc.gz" |} ] in
  ∃ w',
    get_remote_index Scenario.demo fresh_instance Scenario.empty_world
    = (Return ["crawl-data/CC-NEWS/2016/a.warc.gz"; "crawl-data/CC-NEWS/2016/b.warc.gz"], w')
    ∧ files w' !! Shell.tmp_listing = None.
Proof.
  intros rows.
  destruct (remote_index_lists_keys Scenario.demo fresh_instance Scenario.empty_world rows
              eq_refl eq_refl) as (w' & Hrun & Htmp & _).
  exists w'. by split.
Defined.

(** X14.  A listing file left behind by an earlier call never reaches the
    result: what [get_remote_index] returns is the same in every world, and
    the listing command always starts from a file system without the
    listing file. *)
Theorem remote_index_ignores_stale_listing (E : env) (self : config) (w1 w2 : world) :
  fst (get_remote_index E self w1) = fst (get_remote_index E self w2).
Proof.
  unfold get_remote_index, subprocess_getoutput. unfold_py.
  cbn [Shell.sh files log_event].
  destruct (files w1 !! Shell.tmp_listing), (files w2 !! Shell.tmp_listing);
    cbn; destruct (p_ok (aws_s3_ls E)); reflexivity.
Qed.


(** *** Paths of article files *)



(** X16.  For an article without a file name, or whose file name or source
    domain is not a string, [get_pretty_filepath] raises ([AttributeError]
    for the file name or a missing domain, [TypeError] for a domain of
    another type) and creates no directory: the world is as before. *)
Theorem pretty_filepath_fails_cleanly (sha256_hexdigest : string → string)
    (path : string) (a : article) (w : world) :
  (∀ f d, ¬ (dict_get "filename" a = Some (VStr f)
             ∧ dict_get "source_domain" a = Some (VStr d))) →
  ∃ e,
    Example.get_pretty_filepath sha256_hexdigest path a w = (Raise e, w)
    ∧ (exc_cls e = AttributeError ∨ exc_cls e = TypeError)
    ∧ (exc_cls e = TypeError →
       ∃ f v, dict_get "filename" a = Some (VStr f)
              ∧ dict_get "source_domain" a = Some v ∧ ∀ d, v ≠ VStr d).
Proof.
  intros Hbad. unfold Example.get_pretty_filepath, getattr, Example.encode, Example.str_add.
  destruct (dict_get "filename" a) as [[|f|t]|] eqn:Hf; unfold_py;
    try (eexists; split; [reflexivity|]; split; [by left|]; by intros [=]).
  destruct (dict_get "source_domain" a) as [[|d|t]|] eqn:Hd;
    try (eexists; split; [reflexivity|]; split; [by left|]; by intros [=]).
  - eexists. split; [reflexivity|]. split; [by right|]. intros _. by exists f, VNone.
  - by destruct (Hbad f d).
  - eexists. split; [reflexivity|]. split; [by right|]. intros _. by exists f, (VDatetime t).
Qed.

Lemma pretty_filepath_fails_cleanly_witness :
  let a := [("source_domain", VStr "a.org"); ("filename", VNone)] in
  ∃ e,
    Example.get_pretty_filepath (λ s, "h" ++ s) "out/" a Scenario.empty_world
    = (Raise e, Scenario.empty_world)
    ∧ exc_cls e = AttributeError.
Proof.
  intros a.
  destruct (pretty_filepath_fails_cleanly (λ s, "h" ++ s) "out/" a Scenario.empty_world)
    as (e & Hrun & Hcls & Htype).
  { intros f d [Hf _]. discriminate Hf. }
  exists e. split; [exact Hrun|].
  destruct Hcls as [?|Hc]; [done|].
  destruct (Htype Hc) as (f & v & Hf & _). discriminate Hf.
Defined.


(** X17.  Archive names do not collide: two names of the index whose
    download URLs have the same local path are the same name, so the files
    of different archives never overwrite or stand in for each other. *)
Theorem archive_names_do_not_collide (self : config) (name1 name2 : string) :
  local_filepath self (get_download_url self name1)
  = local_filepath self (get_download_url self name2) →
  name1 = name2.
Proof.
  unfold local_filepath.
  rewrite !os_path_join_name by apply quote_plus_no_sep.
  intros H%string_app_inv_head.
  assert (Hurl : get_download_url self name1 = get_download_url self name2).
  { rewrite <- (unquote_quote_plus (get_download_url self name1)),
      <- (unquote_quote_plus (get_download_url self name2)). by rewrite H. }
  unfold get_download_url in Hurl. by apply string_app_inv_head in Hurl.
Qed.

Lemma archive_names_do_not_collide_witness :
  let name := "crawl-data/CC-NEWS/2016/a.warc.gz" in
  local_filepath fresh_instance (get_download_url fresh_instance name)
  = "./cc_download_warc/https%3A%2F%2Fcommoncrawl.s3.amazonaws.com%2Fcrawl-data%2FCC-NEWS%2F2016%2Fa.warc.gz"
  ∧ name = name.
Proof.
  intros name. split; [reflexivity|].
  apply (archive_names_do_not_collide fresh_instance name name). reflexivity.
Defined.
